(** * ipfs-lite: host and DHT assembly (util.go)

    A shallow embedding of [util.go] of package [ipfslite] and of the parts
    of its dependencies (go-libp2p, go-libp2p-kad-dht, go-yamux) that the
    package drives.  The package's own functions ([DefaultBootstrapPeers],
    [NewInMemoryDatastore], [connMgr], [Libp2pOptionsExtra], [SetupLibp2p],
    [newDHT]) are transcribed statement by statement in [Module ipfslite].
    The dependencies are not part of the repository: the modules named after
    the Go packages ([peer], [dht], [dualdht], [connmgr], [yamux], [libp2p])
    model the documented behaviour of the exported functions that
    [util.go] calls, restricted to the configuration fields it touches.

    Conventions.
    - A Go value that may be [nil] (interface, pointer, slice compared with
      [nil]) is an [option].
    - A Go [(T, error)] result is a [result T].
    - Mutable state (the datastore allocator, the open listeners, the DHT
      instances that are running, and the variables [ddht] and [err]
      captured by the routing closure of [SetupLibp2p]) lives in a [World]
      that is threaded explicitly.
    - Outcomes decided by the network or by library internals that are out
      of scope (binding a listener, starting the DHT) are read from an
      oracle [Env]; statements quantify over every oracle.
    - Go does not specify the iteration order of a [map]; a [range] over
      a map takes an explicit [MapOrder] that picks the order. *)

From Stdlib Require Import ZArith String Init.Byte Permutation Lia.
From stdpp Require Import gmap strings list fin_maps.

Local Open Scope string_scope.
Local Open Scope list_scope.

(** ** Errors and results *)

Definition Error := string.

Inductive result (A : Type) : Type :=
| Ok (a : A)
| Err (e : Error).
Arguments Ok {A} a.
Arguments Err {A} e.

Definition result_bind {A B} (r : result A) (k : A -> result B) : result B :=
  match r with
  | Ok a => k a
  | Err e => Err e
  end.

Definition is_ok {A} (r : result A) : bool :=
  match r with Ok _ => true | Err _ => false end.

(** ** Go map iteration

    [range_map o l] enumerates the entries [l] of a map in the order chosen
    by [o]: at every step the entry at index [k mod (remaining length)] is
    visited next, where [k] is the next number of [o] ([0] once [o] is
    exhausted).  Every order of visiting the entries is obtained from some
    [o], and nothing but a reordering is. *)

Definition MapOrder := list nat.

Fixpoint range_from {A} (fuel : nat) (o : MapOrder) (l : list A) : list A :=
  match fuel with
  | O => []
  | S fuel' =>
      match l with
      | [] => []
      | x :: _ =>
          let k := match o with [] => 0 | k :: _ => k mod length l end in
          nth k l x :: range_from fuel' (tail o) (delete k l)
      end
  end.

Definition range_map {A} (o : MapOrder) (l : list A) : list A :=
  range_from (length l) o l.

(** ** multiaddr and peer.AddrInfo *)

Module multiaddr.

(** A multiaddress is a sequence of (protocol, value) components, e.g.
    [/ip4/104.131.131.82/tcp/4001/p2p/Qm...]. *)
Definition Component : Type := string * string.
Definition Multiaddr : Type := list Component.

(** [SplitLast m]: everything but the last component, and the last one. *)
Definition SplitLast (m : Multiaddr) : Multiaddr * option Component :=
  match rev m with
  | [] => ([], None)
  | c :: r => (rev r, Some c)
  end.

End multiaddr.

Module peer.
Import multiaddr.

Definition ID := string.

Record AddrInfo := { ID_ : ID; Addrs : list Multiaddr }.

Definition ErrInvalidAddr : Error := "invalid p2p multiaddr".

(** [SplitAddr m] splits a p2p multiaddress into its transport part and
    its peer identifier; the identifier is empty when [m] has no
    trailing [/p2p] component, the transport is empty when [m] is only
    a [/p2p] component. *)
Definition SplitAddr (m : Multiaddr) : Multiaddr * ID :=
  match SplitLast m with
  | (transport, Some (proto, v)) =>
      if String.eqb proto "p2p" then (transport, v) else (m, "")
  | (_, None) => (m, "")
  end.

(** The loop body of [AddrInfosFromP2pAddrs]: [m[id] = append(m[id], transport)],
    or, for a bare [/p2p/id], create the entry if it is missing. *)
Definition add_addr (m : gmap ID (list Multiaddr)) (transport : Multiaddr) (id : ID)
  : gmap ID (list Multiaddr) :=
  match transport with
  | [] => match m !! id with
          | Some _ => m
          | None => <[id := []]> m
          end
  | _ => <[id := default [] (m !! id) ++ [transport]]> m
  end.

Fixpoint group_addrs (m : gmap ID (list Multiaddr)) (maddrs : list Multiaddr)
  : result (gmap ID (list Multiaddr)) :=
  match maddrs with
  | [] => Ok m
  | maddr :: rest =>
      let '(transport, id) := SplitAddr maddr in
      if String.eqb id "" then Err ErrInvalidAddr
      else group_addrs (add_addr m transport id) rest
  end.

(** [AddrInfosFromP2pAddrs]: group the addresses by peer, then [range]
    over the map to build the slice.  On an invalid address the slice
    returned with the error is [nil]. *)
Definition AddrInfosFromP2pAddrs (o : MapOrder) (maddrs : list Multiaddr)
  : list AddrInfo * option Error :=
  match group_addrs ∅ maddrs with
  | Err e => ([], Some e)
  | Ok m =>
      (map (fun '(id, addrs) => {| ID_ := id; Addrs := addrs |})
           (range_map o (map_to_list m)), None)
  end.

End peer.

(** ** The world outside the program

    [World] is the mutable state reached through the libraries: the
    allocator of in-memory datastores, the allocator of host handles, the
    network listeners currently open (each tagged with the handle of the
    host that owns it), and the DHT instances that were started and not
    closed (each entry is the handle of the host the instance serves).
    [Env] fixes the outcome of the steps whose success is decided outside
    the program. *)

Record World := {
  next_store : nat;
  next_host : nat;
  listeners : list (nat * multiaddr.Multiaddr);
  running_dhts : list nat
}.

Record Env := {
  listen_err : list multiaddr.Multiaddr -> option Error; (* binding the listen addresses *)
  late_err : option Error;                               (* a service started after listening *)
  dht_err : option Error                                 (* starting a DHT instance *)
}.

Definition world0 : World :=
  {| next_store := 0; next_host := 0; listeners := []; running_dhts := [] |}.

(** Handles of the listeners in [w] are handles that were allocated. *)
Definition wf_world (w : World) : Prop :=
  Forall (fun p => fst p < next_host w) (listeners w).

(** A small state monad over [World]. *)
Definition M (A : Type) : Type := World -> A * World.

Definition ret {A} (a : A) : M A := fun w => (a, w).

Definition bind {A B} (m : M A) (k : A -> M B) : M B :=
  fun w => let '(a, w') := m w in k a w'.

Notation "'do' x <- m ; k" := (bind m (fun x => k))
  (at level 10, x name, m at level 100, k at level 200).

(** ** go-datastore *)

Module datastore.

(** A [Batching] value is a handle on a mutable store: two values with the
    same [store_id] read and write the same records. *)
Record Batching := { store_id : nat; mutex_wrapped : bool }.

(** [NewMapDatastore()] allocates a fresh, non-persistent map store. *)
Definition NewMapDatastore : M Batching :=
  fun w =>
    ({| store_id := next_store w; mutex_wrapped := false |},
     {| next_store := S (next_store w);
        next_host := next_host w;
        listeners := listeners w;
        running_dhts := running_dhts w |}).

(** [sync.MutexWrap(d)]: the same store behind a mutex. *)
Definition MutexWrap (d : Batching) : Batching :=
  {| store_id := store_id d; mutex_wrapped := true |}.

End datastore.

(** ** Keys, peerstores and basic hosts *)

Module crypto.
Record PrivKey := { key_id : nat }.
End crypto.

Module peerstore.
(** The peerstore of a host; [ps_host] is the handle of that host. *)
Record Peerstore := { ps_host : nat }.
End peerstore.

Module pnet.
(** [pnet.PSK] is a byte slice. *)
Definition PSK := list byte.

(** [NewProtectedConn] (run when a connection is upgraded) is where
    go-libp2p checks the length of the key. *)
Definition NewProtectedConn (psk : PSK) : result unit :=
  if Nat.eqb (length psk) 32 then Ok tt else Err "expected 32 byte PSK".
End pnet.

(** ** Record validators *)

Module record.
Inductive Validator :=
| PublicKeyValidator                                   (* record.PublicKeyValidator{} *)
| IpnsValidator (KeyBook : peerstore.Peerstore)         (* ipns.Validator{KeyBook: ...} *)
| OtherValidator (name : string).
End record.

(** ** time *)

Module time.
(** [time.Duration] counts nanoseconds. *)
Definition Duration := Z.
Definition Second : Duration := 1000000000%Z.
Definition Minute : Duration := (60 * Second)%Z.
End time.

(** ** connmgr *)

Module connmgr.

Record ConnManager := {
  lowWater : Z;
  highWater : Z;
  gracePeriod : time.Duration;
  silencePeriod : time.Duration
}.

Inductive Option :=
| WithGracePeriod (p : time.Duration)
| WithSilencePeriod (p : time.Duration).

Definition apply (o : Option) (c : ConnManager) : result ConnManager :=
  match o with
  | WithGracePeriod p =>
      if (p <? 0)%Z then Err "grace period must be non-negative"
      else Ok {| lowWater := lowWater c; highWater := highWater c;
                 gracePeriod := p; silencePeriod := silencePeriod c |}
  | WithSilencePeriod p =>
      if (p <=? 0)%Z then Err "silence period must be non-zero"
      else Ok {| lowWater := lowWater c; highWater := highWater c;
                 gracePeriod := gracePeriod c; silencePeriod := p |}
  end.

Fixpoint apply_all (opts : list Option) (c : ConnManager) : result ConnManager :=
  match opts with
  | [] => Ok c
  | o :: rest => result_bind (apply o c) (apply_all rest)
  end.

(** [NewConnManager(low, hi, opts...)]. *)
Definition NewConnManager (low hi : Z) (opts : list Option) : result ConnManager :=
  apply_all opts
    {| lowWater := low; highWater := hi;
       gracePeriod := time.Minute; silencePeriod := (10 * time.Second)%Z |}.

End connmgr.

(** ** go-yamux and the libp2p yamux muxer *)

Module yamux.

Inductive Writer := Stderr | Discard.      (* os.Stderr, io.Discard *)

(** The fields of [yamux.Config] that the program assigns. *)
Record Config := {
  AcceptBacklog : Z;
  EnableKeepAlive : bool;
  KeepAliveInterval : time.Duration;
  MaxStreamWindowSize : Z;
  MaxMessageSize : Z;
  LogOutput : Writer
}.

Definition DefaultConfig : Config :=
  {| AcceptBacklog := 256;
     EnableKeepAlive := true;
     KeepAliveInterval := (30 * time.Second)%Z;
     MaxStreamWindowSize := (16 * 1024 * 1024)%Z;
     MaxMessageSize := (64 * 1024)%Z;
     LogOutput := Stderr |}.

(** Field assignments [cfg.F = v]. *)
Definition set_MaxStreamWindowSize (v : Z) (c : Config) : Config :=
  {| AcceptBacklog := AcceptBacklog c; EnableKeepAlive := EnableKeepAlive c;
     KeepAliveInterval := KeepAliveInterval c; MaxStreamWindowSize := v;
     MaxMessageSize := MaxMessageSize c; LogOutput := LogOutput c |}.
Definition set_AcceptBacklog (v : Z) (c : Config) : Config :=
  {| AcceptBacklog := v; EnableKeepAlive := EnableKeepAlive c;
     KeepAliveInterval := KeepAliveInterval c;
     MaxStreamWindowSize := MaxStreamWindowSize c;
     MaxMessageSize := MaxMessageSize c; LogOutput := LogOutput c |}.
Definition set_EnableKeepAlive (v : bool) (c : Config) : Config :=
  {| AcceptBacklog := AcceptBacklog c; EnableKeepAlive := v;
     KeepAliveInterval := KeepAliveInterval c;
     MaxStreamWindowSize := MaxStreamWindowSize c;
     MaxMessageSize := MaxMessageSize c; LogOutput := LogOutput c |}.
Definition set_KeepAliveInterval (v : time.Duration) (c : Config) : Config :=
  {| AcceptBacklog := AcceptBacklog c; EnableKeepAlive := EnableKeepAlive c;
     KeepAliveInterval := v; MaxStreamWindowSize := MaxStreamWindowSize c;
     MaxMessageSize := MaxMessageSize c; LogOutput := LogOutput c |}.
Definition set_MaxMessageSize (v : Z) (c : Config) : Config :=
  {| AcceptBacklog := AcceptBacklog c; EnableKeepAlive := EnableKeepAlive c;
     KeepAliveInterval := KeepAliveInterval c;
     MaxStreamWindowSize := MaxStreamWindowSize c;
     MaxMessageSize := v; LogOutput := LogOutput c |}.
Definition set_LogOutput (v : Writer) (c : Config) : Config :=
  {| AcceptBacklog := AcceptBacklog c; EnableKeepAlive := EnableKeepAlive c;
     KeepAliveInterval := KeepAliveInterval c;
     MaxStreamWindowSize := MaxStreamWindowSize c;
     MaxMessageSize := MaxMessageSize c; LogOutput := v |}.

End yamux.

Module network.

(** [network.Multiplexer] values.  [YamuxTransport c] is a pointer to
    the value [libp2pYamux.Transport(c)]. *)
Inductive Multiplexer :=
| YamuxTransport (c : yamux.Config)
| OtherMultiplexer (name : string).

(** An entry of [Config.Muxers]. *)
Record StreamMuxer := { MuxerID : string; Muxer_ : Multiplexer }.

(** Transport constructors handed to [libp2p.Transport]. *)
Inductive TransportC :=
| tcp_NewTCPTransport
| websocket_New
| quic_NewTransport
| webtransport_New
| webrtc_New.

(** Whether the transport can run inside a private network: the others
    refuse to be constructed when a pre-shared key is set. *)
Definition supports_pnet (t : TransportC) : bool :=
  match t with
  | tcp_NewTCPTransport | websocket_New => true
  | quic_NewTransport | webtransport_New | webrtc_New => false
  end.

End network.

Module host.

(** A constructed host, as seen through the settings it was built from.
    A field that is [None] was left to the library's fallback default. *)
Record Host := {
  handle : nat;
  identity : option crypto.PrivKey;
  addrs : list multiaddr.Multiaddr;
  psk : option pnet.PSK;
  transports : option (list network.TransportC);
  muxers : option (list network.StreamMuxer);
  connManager : option connmgr.ConnManager
}.

Definition Peerstore (h : Host) : peerstore.Peerstore :=
  {| peerstore.ps_host := handle h |}.

End host.

(** ** go-libp2p-kad-dht *)

Module dht.

Inductive ModeOpt := ModeAuto | ModeClient | ModeServer | ModeAutoServer.

(** The options of package [dht] that occur in the program or in
    [dual.New]; [Other] stands for an option that sets none of the
    fields modelled in [Config] (query and routing-table filters,
    protocol extensions). *)
Inductive Option :=
| NamespacedValidator (ns : string) (v : record.Validator)
| Concurrency (alpha : Z)
| Mode (m : ModeOpt)
| Datastore (ds : datastore.Batching)
| Other (name : string).

Record Config := {
  Validator : gmap string record.Validator;   (* a record.NamespacedValidator *)
  Concurrency_ : Z;
  Mode_ : ModeOpt;
  Datastore_ : datastore.Batching
}.

(** [dhtcfg.Defaults], given the store it has just allocated. *)
Definition Defaults (fresh : datastore.Batching) : Config :=
  {| Validator := ∅;
     Concurrency_ := 10;
     Mode_ := ModeAuto;
     Datastore_ := fresh |}.

Definition apply (o : Option) (c : Config) : Config :=
  match o with
  | NamespacedValidator ns v =>
      {| Validator := <[ns := v]> (Validator c); Concurrency_ := Concurrency_ c;
         Mode_ := Mode_ c; Datastore_ := Datastore_ c |}
  | Concurrency alpha =>
      {| Validator := Validator c; Concurrency_ := alpha;
         Mode_ := Mode_ c; Datastore_ := Datastore_ c |}
  | Mode m =>
      {| Validator := Validator c; Concurrency_ := Concurrency_ c;
         Mode_ := m; Datastore_ := Datastore_ c |}
  | Datastore ds =>
      {| Validator := Validator c; Concurrency_ := Concurrency_ c;
         Mode_ := Mode_ c; Datastore_ := ds |}
  | Other _ => c
  end.

(** Options are applied in order, so a later one overrides an earlier one. *)
Definition apply_all (opts : list Option) (c : Config) : Config :=
  fold_left (fun c o => apply o c) opts c.

(** [ApplyFallbacks]: the two standard validators are added when missing. *)
Definition ApplyFallbacks (h : host.Host) (c : Config) : Config :=
  let v1 := match Validator c !! "pk" with
            | Some _ => Validator c
            | None => <["pk" := record.PublicKeyValidator]> (Validator c)
            end in
  let v2 := match v1 !! "ipns" with
            | Some _ => v1
            | None => <["ipns" := record.IpnsValidator (host.Peerstore h)]> v1
            end in
  {| Validator := v2; Concurrency_ := Concurrency_ c;
     Mode_ := Mode_ c; Datastore_ := Datastore_ c |}.

(** [Validate] for the default protocol prefix: exactly the validators
    [pk] and [ipns], of the expected kinds. *)
Definition Validate (c : Config) : option Error :=
  if negb (Nat.eqb (size (Validator c)) 2) then
    Some "protocol prefix /ipfs must have exactly two namespaced validators - /pk and /ipns"
  else
    match Validator c !! "pk" with
    | Some record.PublicKeyValidator =>
        match Validator c !! "ipns" with
        | Some (record.IpnsValidator _) => None
        | Some _ => Some "protocol prefix /ipfs must use ipns.Validator for the /ipns namespace"
        | None => Some "protocol prefix /ipfs must support the /ipns namespaced Validator"
        end
    | Some _ => Some "protocol prefix /ipfs must use the record.PublicKeyValidator for the /pk namespace"
    | None => Some "protocol prefix /ipfs must support the /pk namespaced Validator"
    end.

(** A running DHT instance. *)
Record IpfsDHT := {
  self : nat;                                  (* handle of the host it serves *)
  validator : gmap string record.Validator;
  alpha : Z;
  mode : ModeOpt;
  datastore_ : datastore.Batching
}.

(** The world in which one more DHT instance runs for host [hid]. *)
Definition started (hid : nat) (w : World) : World :=
  {| next_store := next_store w;
     next_host := next_host w;
     listeners := listeners w;
     running_dhts := hid :: running_dhts w |}.

(** [dht.New(ctx, h, opts...)]: on success the instance is running, and
    stays so until its [Close] is called. *)
Definition New (env : Env) (h : host.Host) (opts : list Option) : M (result IpfsDHT) :=
  do fresh <- datastore.NewMapDatastore;
  let cfg := ApplyFallbacks h (apply_all opts (Defaults (datastore.MutexWrap fresh))) in
  match Validate cfg with
  | Some e => ret (Err e)
  | None =>
      match dht_err env with
      | Some e => ret (Err e)
      | None =>
          fun w =>
            (Ok {| self := host.handle h;
                   validator := Validator cfg;
                   alpha := Concurrency_ cfg;
                   mode := Mode_ cfg;
                   datastore_ := Datastore_ cfg |},
             started (host.handle h) w)
      end
  end.

(** The method [Mode()] of an instance: the mode it was configured with. *)
Definition IpfsDHT_Mode (d : IpfsDHT) : ModeOpt := mode d.

End dht.

Module dualdht.

Inductive Option :=
| DHTOption (opts : list dht.Option)       (* both instances *)
| WanDHTOption (opts : list dht.Option)
| LanDHTOption (opts : list dht.Option).

Record config := { wan : list dht.Option; lan : list dht.Option }.

Definition apply (o : Option) (c : config) : config :=
  match o with
  | DHTOption opts => {| wan := wan c ++ opts; lan := lan c ++ opts |}
  | WanDHTOption opts => {| wan := wan c ++ opts; lan := lan c |}
  | LanDHTOption opts => {| wan := wan c; lan := lan c ++ opts |}
  end.

Definition apply_all (opts : list Option) (c : config) : config :=
  fold_left (fun c o => apply o c) opts c.

(** The dual DHT: a public (WAN) and a private (LAN) instance. *)
Record DHT := { WAN : dht.IpfsDHT; LAN : dht.IpfsDHT }.

(** [dual.New(ctx, h, options...)]: the library's own settings for each
    instance come first, the caller's options after them.  The WAN
    instance is built first; unless its mode is [ModeClient], the option
    [dht.Mode(dht.ModeServer)] is appended to the LAN options, after the
    caller's. *)
Definition New (env : Env) (h : host.Host) (options : list Option) : M (result DHT) :=
  let cfg := {| wan := []; lan := [] |} in
  let cfg := apply (WanDHTOption [dht.Other "QueryFilter(PublicQueryFilter)";
                                  dht.Other "RoutingTableFilter(PublicRoutingTableFilter)";
                                  dht.Other "RoutingTablePeerDiversityFilter";
                                  dht.Other "AddressFilter(public)"]) cfg in
  let cfg := apply (LanDHTOption [dht.Other "ProtocolExtension(/lan)";
                                  dht.Other "QueryFilter(PrivateQueryFilter)";
                                  dht.Other "RoutingTableFilter(PrivateRoutingTableFilter)"]) cfg in
  let cfg := apply_all options cfg in
  do w <- dht.New env h (wan cfg);
  match w with
  | Err e => ret (Err e)
  | Ok w =>
      let lanOpts :=
        match dht.IpfsDHT_Mode w with
        | dht.ModeClient => lan cfg
        | _ => lan cfg ++ [dht.Mode dht.ModeServer]
        end in
      do l <- dht.New env h lanOpts;
      match l with
      | Err e => ret (Err e)
      | Ok l => ret (Ok {| WAN := w; LAN := l |})
      end
  end.

End dualdht.

Module routing.
(** [routing.PeerRouting] values. *)
Inductive PeerRouting :=
| DualDHT (d : dualdht.DHT)
| OtherRouting (name : string).
End routing.

(** ** go-libp2p: configuration and options

    An option is a function on the configuration under construction
    ([type Option func(cfg *Config) error]); [Config] is an exported struct
    with exported fields, so besides the options built by the library's
    constructors a caller may pass any function of this type.  The
    type [C] stands for the variables captured by the closures that are
    handed to the library (here: the routing provider). *)

Module config.
Import multiaddr network.

(** The auto-relay peer source: the peers it sends for a request of
    [num] peers, or a panic. *)
Definition PeerSource := MapOrder -> Z -> result (list peer.AddrInfo).

Section Closure.
Context {C : Type}.

(** [RoutingC]: builds the router for the host under construction. *)
Definition RoutingC : Type :=
  host.Host -> C -> M (result routing.PeerRouting * C).

Record Config := {
  PeerKey : option crypto.PrivKey;
  ListenAddrs : list Multiaddr;
  PSK : option pnet.PSK;
  Transports : option (list TransportC);
  Muxers : option (list StreamMuxer);
  Routing : option RoutingC;
  ConnManager : option connmgr.ConnManager;
  NATManager : bool;
  AutoRelay : option PeerSource;
  EnableAutoNAT : bool
}.

(** The zero value that [libp2p.New] starts from. *)
Definition empty : Config :=
  {| PeerKey := None; ListenAddrs := []; PSK := None; Transports := None;
     Muxers := None; Routing := None; ConnManager := None;
     NATManager := false; AutoRelay := None; EnableAutoNAT := false |}.

(** Field assignments [cfg.F = v]. *)
Definition set_PeerKey v (c : Config) : Config :=
  {| PeerKey := v; ListenAddrs := ListenAddrs c; PSK := PSK c;
     Transports := Transports c; Muxers := Muxers c; Routing := Routing c;
     ConnManager := ConnManager c; NATManager := NATManager c;
     AutoRelay := AutoRelay c; EnableAutoNAT := EnableAutoNAT c |}.
Definition set_ListenAddrs v (c : Config) : Config :=
  {| PeerKey := PeerKey c; ListenAddrs := v; PSK := PSK c;
     Transports := Transports c; Muxers := Muxers c; Routing := Routing c;
     ConnManager := ConnManager c; NATManager := NATManager c;
     AutoRelay := AutoRelay c; EnableAutoNAT := EnableAutoNAT c |}.
Definition set_PSK v (c : Config) : Config :=
  {| PeerKey := PeerKey c; ListenAddrs := ListenAddrs c; PSK := v;
     Transports := Transports c; Muxers := Muxers c; Routing := Routing c;
     ConnManager := ConnManager c; NATManager := NATManager c;
     AutoRelay := AutoRelay c; EnableAutoNAT := EnableAutoNAT c |}.
Definition set_Transports v (c : Config) : Config :=
  {| PeerKey := PeerKey c; ListenAddrs := ListenAddrs c; PSK := PSK c;
     Transports := v; Muxers := Muxers c; Routing := Routing c;
     ConnManager := ConnManager c; NATManager := NATManager c;
     AutoRelay := AutoRelay c; EnableAutoNAT := EnableAutoNAT c |}.
Definition set_Muxers v (c : Config) : Config :=
  {| PeerKey := PeerKey c; ListenAddrs := ListenAddrs c; PSK := PSK c;
     Transports := Transports c; Muxers := v; Routing := Routing c;
     ConnManager := ConnManager c; NATManager := NATManager c;
     AutoRelay := AutoRelay c; EnableAutoNAT := EnableAutoNAT c |}.
Definition set_Routing v (c : Config) : Config :=
  {| PeerKey := PeerKey c; ListenAddrs := ListenAddrs c; PSK := PSK c;
     Transports := Transports c; Muxers := Muxers c; Routing := v;
     ConnManager := ConnManager c; NATManager := NATManager c;
     AutoRelay := AutoRelay c; EnableAutoNAT := EnableAutoNAT c |}.
Definition set_ConnManager v (c : Config) : Config :=
  {| PeerKey := PeerKey c; ListenAddrs := ListenAddrs c; PSK := PSK c;
     Transports := Transports c; Muxers := Muxers c; Routing := Routing c;
     ConnManager := v; NATManager := NATManager c;
     AutoRelay := AutoRelay c; EnableAutoNAT := EnableAutoNAT c |}.
Definition set_NATManager v (c : Config) : Config :=
  {| PeerKey := PeerKey c; ListenAddrs := ListenAddrs c; PSK := PSK c;
     Transports := Transports c; Muxers := Muxers c; Routing := Routing c;
     ConnManager := ConnManager c; NATManager := v;
     AutoRelay := AutoRelay c; EnableAutoNAT := EnableAutoNAT c |}.
Definition set_AutoRelay v (c : Config) : Config :=
  {| PeerKey := PeerKey c; ListenAddrs := ListenAddrs c; PSK := PSK c;
     Transports := Transports c; Muxers := Muxers c; Routing := Routing c;
     ConnManager := ConnManager c; NATManager := NATManager c;
     AutoRelay := v; EnableAutoNAT := EnableAutoNAT c |}.
Definition set_EnableAutoNAT v (c : Config) : Config :=
  {| PeerKey := PeerKey c; ListenAddrs := ListenAddrs c; PSK := PSK c;
     Transports := Transports c; Muxers := Muxers c; Routing := Routing c;
     ConnManager := ConnManager c; NATManager := NATManager c;
     AutoRelay := AutoRelay c; EnableAutoNAT := v |}.

Definition Option : Type := Config -> result Config.

(** [cfg.Apply(opts...)]: the options run in order on the same
    configuration; the first error stops the run. *)
Fixpoint Apply (opts : list Option) (c : Config) : result Config :=
  match opts with
  | [] => Ok c
  | o :: rest => result_bind (o c) (Apply rest)
  end.

End Closure.
Arguments Config C : clear implicits.
Arguments Option C : clear implicits.
Arguments RoutingC C : clear implicits.

End config.

(** The host returned by [libp2p.New]: the basic host and, when a routing
    provider was configured, the router it produced. *)
Module routedhost.
Record RoutedHost := {
  basic : host.Host;
  router : option routing.PeerRouting
}.
End routedhost.

Module libp2p.
Import multiaddr network config.

Section Closure.
Context {C : Type}.
Abbreviation Config := (config.Config C).
Abbreviation Option := (config.Option C).

Definition Identity (sk : option crypto.PrivKey) : Option := fun cfg =>
  match PeerKey cfg with
  | Some _ => Err "cannot specify multiple identities"
  | None => Ok (set_PeerKey sk cfg)
  end.

Definition ListenAddrs (addrs : list Multiaddr) : Option := fun cfg =>
  Ok (set_ListenAddrs (config.ListenAddrs cfg ++ addrs) cfg).

Definition PrivateNetwork (psk : option pnet.PSK) : Option := fun cfg =>
  match PSK cfg with
  | Some _ => Err "cannot specify multiple private network options"
  | None => Ok (set_PSK psk cfg)
  end.

Definition ChainOptions (opts : list Option) : Option := fun cfg =>
  Apply opts cfg.

(** [NoTransports] installs an empty, non-nil transport list. *)
Definition NoTransports : Option := fun cfg =>
  Ok (set_Transports (Some []) cfg).

Definition Transport (constructor : TransportC) : Option := fun cfg =>
  Ok (set_Transports (Some (default [] (Transports cfg) ++ [constructor])) cfg).

Definition DefaultTransportList : list TransportC :=
  [tcp_NewTCPTransport; quic_NewTransport; websocket_New;
   webtransport_New; webrtc_New].

Definition DefaultTransports : Option :=
  ChainOptions (map Transport DefaultTransportList).

Definition Routing (rt : RoutingC C) : Option := fun cfg =>
  match config.Routing cfg with
  | Some _ => Err "cannot specify multiple routing options"
  | None => Ok (set_Routing (Some rt) cfg)
  end.

Definition Muxer (name : string) (muxer : Multiplexer) : Option := fun cfg =>
  Ok (set_Muxers
        (Some (default [] (Muxers cfg) ++ [{| MuxerID := name; Muxer_ := muxer |}]))
        cfg).

Definition ConnectionManager (connman : option connmgr.ConnManager) : Option :=
  fun cfg =>
    match ConnManager cfg with
    | Some _ => Err "cannot specify multiple connection managers"
    | None => Ok (set_ConnManager connman cfg)
    end.

Definition NATPortMap : Option := fun cfg =>
  if NATManager cfg then Err "cannot specify multiple NATManagers"
  else Ok (set_NATManager true cfg).

Definition EnableAutoRelayWithPeerSource (peerSource : PeerSource) : Option :=
  fun cfg => Ok (set_AutoRelay (Some peerSource) cfg).

Definition EnableNATService : Option := fun cfg =>
  Ok (set_EnableAutoNAT true cfg).

(** *** Node construction *)

Definition with_listeners (ls : list (nat * Multiaddr)) (w : World) : World :=
  {| next_store := next_store w; next_host := next_host w; listeners := ls;
     running_dhts := running_dhts w |}.

(** [h.Close()]: every listener of the host is closed. *)
Definition Close (h : host.Host) (w : World) : World :=
  with_listeners
    (filter (fun p => negb (Nat.eqb (fst p) (host.handle h))) (listeners w)) w.

(** A transport that cannot run in a private network fails to
    construct when a key is set. *)
Definition pnet_conflict (cfg : Config) : bool :=
  match PSK cfg, Transports cfg with
  | Some (_ :: _), Some ts => negb (forallb supports_pnet ts)
  | _, _ => false
  end.

Definition finish (env : Env) (h : host.Host) (r : option routing.PeerRouting)
    (cl : C) : M (result routedhost.RoutedHost * C) := fun w =>
  match late_err env with
  | Some e => ((Err e, cl), Close h w)
  | None => ((Ok {| routedhost.basic := h; routedhost.router := r |}, cl), w)
  end.

(** Starting the host: its listen addresses are bound, then the remaining
    services start. *)
Definition start (env : Env) (h : host.Host) (r : option routing.PeerRouting)
    (cl : C) : M (result routedhost.RoutedHost * C) := fun w =>
  match listen_err env (host.addrs h) with
  | Some e => ((Err e, cl), Close h w)
  | None =>
      finish env h r cl
        (with_listeners
           (map (fun a => (host.handle h, a)) (host.addrs h) ++ listeners w) w)
  end.

(** [cfg.NewNode()]: build the host, run the routing provider on it, then
    start it.  A failure at any step closes the host; what the routing
    provider had started is its own. *)
Definition NewNode (env : Env) (cfg : Config) (cl : C)
  : M (result routedhost.RoutedHost * C) := fun w =>
  if pnet_conflict cfg then
    ((Err "transport doesn't support private networks yet", cl), w)
  else
    let h := {| host.handle := next_host w;
                host.identity := PeerKey cfg;
                host.addrs := config.ListenAddrs cfg;
                host.psk := PSK cfg;
                host.transports := Transports cfg;
                host.muxers := Muxers cfg;
                host.connManager := ConnManager cfg |} in
    let w1 := {| next_store := next_store w;
                 next_host := S (next_host w);
                 listeners := listeners w;
                 running_dhts := running_dhts w |} in
    match config.Routing cfg with
    | None => start env h None cl w1
    | Some rt =>
        let '((r, cl'), w2) := rt h cl w1 in
        match r with
        | Err e => ((Err e, cl'), Close h w2)
        | Ok r => start env h (Some r) cl' w2
        end
    end.

(** [libp2p.New(opts...)].  The library's fallback defaults fill the
    fields that the options left unset; such a field stays [None] in
    the host built here. *)
Definition New (env : Env) (opts : list Option) (cl : C)
  : M (result routedhost.RoutedHost * C) := fun w =>
  match Apply opts config.empty with
  | Err e => ((Err e, cl), w)
  | Ok cfg => NewNode env cfg cl w
  end.

End Closure.

End libp2p.

(** ** Package ipfslite (util.go) *)

Module ipfslite.
Import multiaddr network.

(** The variables [ddht] and [err] of [SetupLibp2p], which its routing
    closure assigns. *)
Record Captured := {
  ddht : option dualdht.DHT;
  err : option Error
}.

Section Bootstrap.

(** The package variable [dht.DefaultBootstrapPeers] of go-libp2p-kad-dht. *)
Variable dht_DefaultBootstrapPeers : list Multiaddr.

(** [DefaultBootstrapPeers]: the error of the conversion is dropped. *)
Definition DefaultBootstrapPeers (o : MapOrder) : list peer.AddrInfo :=
  let '(peers, _) := peer.AddrInfosFromP2pAddrs o dht_DefaultBootstrapPeers in
  peers.

(** The peer source of [Libp2pOptionsExtra]: a channel of capacity [num]
    filled with the first [num] bootstrap peers and closed. *)
Definition peerSource : config.PeerSource := fun o num =>
  if (num <? 0)%Z then Err "panic: makechan: size out of range"
  else
    let ipfspeers := DefaultBootstrapPeers o in
    Ok (take (Z.to_nat num) ipfspeers).

End Bootstrap.

(** [NewInMemoryDatastore]. *)
Definition NewInMemoryDatastore : M datastore.Batching :=
  do d <- datastore.NewMapDatastore;
  ret (datastore.MutexWrap d).

(** [var connMgr, _ = connmgr.NewConnManager(100, 600, connmgr.WithGracePeriod(time.Minute))] *)
Definition connMgr : option connmgr.ConnManager :=
  match connmgr.NewConnManager 100 600 [connmgr.WithGracePeriod time.Minute] with
  | Ok m => Some m
  | Err _ => None
  end.

Definition Libp2pOptionsExtra {C} (dht_DefaultBootstrapPeers : list Multiaddr)
  : list (config.Option C) :=
  [ libp2p.NATPortMap;
    libp2p.ConnectionManager connMgr;
    libp2p.EnableAutoRelayWithPeerSource (peerSource dht_DefaultBootstrapPeers);
    libp2p.EnableNATService ].

(** The slice [dhtOpts] that [newDHT] builds. *)
Definition dhtOpts (h : host.Host) (ds : option datastore.Batching)
    (dhtMode : dht.ModeOpt) : list dualdht.Option :=
  let dhtOpts :=
    [ dualdht.DHTOption [dht.NamespacedValidator "pk" record.PublicKeyValidator];
      dualdht.DHTOption
        [dht.NamespacedValidator "ipns" (record.IpnsValidator (host.Peerstore h))];
      dualdht.DHTOption [dht.Concurrency 10];
      dualdht.DHTOption [dht.Mode dhtMode] ] in
  match ds with
  | Some ds => dhtOpts ++ [dualdht.DHTOption [dht.Datastore ds]]
  | None => dhtOpts
  end.

Definition newDHT (env : Env) (h : host.Host) (ds : option datastore.Batching)
    (dhtMode : dht.ModeOpt) : M (result dualdht.DHT) :=
  dualdht.New env h (dhtOpts h ds dhtMode).

(** The closure passed to [libp2p.Routing]:
    [ddht, err = newDHT(ctx, h, ds, dhtMode); return ddht, err]. *)
Definition routingProvider (env : Env) (ds : option datastore.Batching)
    (dhtMode : dht.ModeOpt) : config.RoutingC Captured :=
  fun h _ w =>
    let '(r, w') := newDHT env h ds dhtMode w in
    match r with
    | Ok d => ((Ok (routing.DualDHT d), {| ddht := Some d; err := None |}), w')
    | Err e => ((Err e, {| ddht := None; err := Some e |}), w')
    end.

(** The transport option chosen from the secret. *)
Definition transportsFor (secret : option pnet.PSK) : config.Option Captured :=
  match secret with
  | Some _ =>
      libp2p.ChainOptions
        [ libp2p.NoTransports;
          libp2p.Transport tcp_NewTCPTransport;
          libp2p.Transport websocket_New ]
  | None => libp2p.DefaultTransports
  end.

(** The options that [SetupLibp2p] sets up itself, before the caller's. *)
Definition mandatoryOpts (env : Env) (hostKey : option crypto.PrivKey)
    (secret : option pnet.PSK) (listenAddrs : list Multiaddr)
    (ds : option datastore.Batching) (dhtMode : dht.ModeOpt)
  : list (config.Option Captured) :=
  [ libp2p.Identity hostKey;
    libp2p.ListenAddrs listenAddrs;
    libp2p.PrivateNetwork secret;
    transportsFor secret;
    libp2p.Routing (routingProvider env ds dhtMode) ].

Definition yamuxConfig : yamux.Config :=
  let c := yamux.DefaultConfig in
  let c := yamux.set_MaxStreamWindowSize (1024 * 1024 * 4) c in
  let c := yamux.set_AcceptBacklog 128 c in
  let c := yamux.set_EnableKeepAlive true c in
  let c := yamux.set_KeepAliveInterval (15 * time.Second)%Z c in
  let c := yamux.set_MaxMessageSize (16 * 1024 * 1024) c in
  let c := yamux.set_LogOutput yamux.Discard c in
  c.

Definition yamuxTransport : Multiplexer := YamuxTransport yamuxConfig.

(** The option list handed to [libp2p.New]. *)
Definition finalOpts (env : Env) (hostKey : option crypto.PrivKey)
    (secret : option pnet.PSK) (listenAddrs : list Multiaddr)
    (ds : option datastore.Batching) (dhtMode : dht.ModeOpt)
    (opts : list (config.Option Captured)) : list (config.Option Captured) :=
  let finalOpts := mandatoryOpts env hostKey secret listenAddrs ds dhtMode in
  let finalOpts := finalOpts ++ opts in
  finalOpts ++ [libp2p.Muxer "/yamux/1.0.0" yamuxTransport].

(** [SetupLibp2p(ctx, hostKey, secret, listenAddrs, ds, dhtMode, opts...)]
    returns [(host, dht, error)]. *)
Definition SetupLibp2p (env : Env) (hostKey : option crypto.PrivKey)
    (secret : option pnet.PSK) (listenAddrs : list Multiaddr)
    (ds : option datastore.Batching) (dhtMode : dht.ModeOpt)
    (opts : list (config.Option Captured))
  : M (option routedhost.RoutedHost * option dualdht.DHT * option Error) :=
  fun w =>
    let vars := {| ddht := None; err := None |} in
    let '((r, vars'), w') :=
      libp2p.New env (finalOpts env hostKey secret listenAddrs ds dhtMode opts) vars w in
    match r with
    | Err e => ((None, None, Some e), w')
    | Ok h => ((Some h, ddht vars', None), w')
    end.

End ipfslite.

(** ** Vocabulary of the statements *)

(** An option [o] keeps the field [f] of the configuration: whenever it
    succeeds, the field has the value it had before. *)
Definition keeps {C A} (f : config.Config C -> A) (o : config.Option C) : Prop :=
  forall c c', o c = Ok c' -> f c' = f c.

(** The identifiers of the two stores of a dual DHT. *)
Definition wan_store (d : dualdht.DHT) : nat :=
  datastore.store_id (dht.datastore_ (dualdht.WAN d)).

Definition lan_store (d : dualdht.DHT) : nat :=
  datastore.store_id (dht.datastore_ (dualdht.LAN d)).

(** The validator table with the two standard namespaces. *)
Definition ipfsValidators (h : host.Host) : gmap string record.Validator :=
  <["ipns" := record.IpnsValidator (host.Peerstore h)]>
    (<["pk" := record.PublicKeyValidator]> ∅).

(** The store that [datastore.NewMapDatastore] hands out at allocator
    position [n], wrapped as the DHT defaults wrap it. *)
Definition fresh_store (n : nat) : datastore.Batching :=
  datastore.MutexWrap {| datastore.store_id := n; datastore.mutex_wrapped := false |}.

(** The world after one store allocation. *)
Definition alloc_store (w : World) : World :=
  {| next_store := S (next_store w);
     next_host := next_host w;
     listeners := listeners w;
     running_dhts := running_dhts w |}.

(** A DHT instance for host [h] with the standard validators, query
    concurrency 10, mode [m] and store [d]. *)
Definition ipfsInstance (h : host.Host) (m : dht.ModeOpt) (d : datastore.Batching)
  : dht.IpfsDHT :=
  {| dht.self := host.handle h;
     dht.validator := ipfsValidators h;
     dht.alpha := 10;
     dht.mode := m;
     dht.datastore_ := d |}.

(** The mode in which the LAN instance of a dual DHT runs when the mode
    [m] is passed to both instances. *)
Definition lanMode (m : dht.ModeOpt) : dht.ModeOpt :=
  match m with
  | dht.ModeClient => dht.ModeClient
  | _ => dht.ModeServer
  end.

(** The configuration reached once the options that [SetupLibp2p] sets up
    itself have run, before any option of the caller. *)
Definition mandatoryCfg (env : Env) (hostKey : option crypto.PrivKey)
    (secret : option pnet.PSK) (listenAddrs : list multiaddr.Multiaddr)
    (ds : option datastore.Batching) (dhtMode : dht.ModeOpt)
  : config.Config ipfslite.Captured :=
  {| config.PeerKey := hostKey;
     config.ListenAddrs := listenAddrs;
     config.PSK := secret;
     config.Transports :=
       Some (match secret with
             | Some _ => [network.tcp_NewTCPTransport; network.websocket_New]
             | None => libp2p.DefaultTransportList
             end);
     config.Muxers := None;
     config.Routing := Some (ipfslite.routingProvider env ds dhtMode);
     config.ConnManager := None;
     config.NATManager := false;
     config.AutoRelay := None;
     config.EnableAutoNAT := false |}.

(** The initial values of the variables captured by the routing closure. *)
Definition vars0 : ipfslite.Captured :=
  {| ipfslite.ddht := None; ipfslite.err := None |}.

(** [add_muxer e c]: the configuration [c] with the muxer entry [e]
    appended, as [libp2p.Muxer] leaves it. *)
Definition add_muxer {C} (e : network.StreamMuxer) (c : config.Config C)
  : config.Config C :=
  config.set_Muxers (Some (default [] (config.Muxers c) ++ [e])) c.

(** The muxer entry that [SetupLibp2p] registers. *)
Definition yamuxEntry : network.StreamMuxer :=
  {| network.MuxerID := "/yamux/1.0.0"; network.Muxer_ := ipfslite.yamuxTransport |}.

(** ** Concrete inputs used in examples *)

(** An environment in which every external step succeeds. *)
Definition env_ok : Env :=
  {| listen_err := fun _ => None; late_err := None; dht_err := None |}.

(** An environment in which the listen addresses cannot be bound. *)
Definition env_port_taken : Env :=
  {| listen_err := fun _ => Some "listen: address already in use";
     late_err := None; dht_err := None |}.

(** The addresses of the public IPFS bootstrap peers, the value of
    [dht.DefaultBootstrapPeers]. *)
Definition bootstrap_addrs : list multiaddr.Multiaddr :=
  [ [("dnsaddr", "bootstrap.libp2p.io");
     ("p2p", "QmNnooDu7bfjPFoTZYxMNLWUQJyrVwtbZg5gBMjTezGAJN")];
    [("dnsaddr", "bootstrap.libp2p.io");
     ("p2p", "QmQCU2EcMqAqQPR2i9bChDtGNJchTbq5TbXJJ16u19uLTa")];
    [("dnsaddr", "bootstrap.libp2p.io");
     ("p2p", "QmbLHAnMoJPWSCR5Zhtx6BHJX9KiKNN6tpvbUcqanj75Nb")];
    [("dnsaddr", "bootstrap.libp2p.io");
     ("p2p", "QmcZf59bWwK5XFi76CZX8cbJ4BhTzzA3gU1ZjYZcYW3dwt")];
    [("ip4", "104.131.131.82"); ("tcp", "4001");
     ("p2p", "QmaCpDMGvV2BGHeYERUEnRQAwe3N8SzbUtfsmvsqQLuvuJ")] ].

Definition key7 : option crypto.PrivKey := Some {| crypto.key_id := 7 |}.

Definition loopback : multiaddr.Multiaddr := [("ip4", "127.0.0.1"); ("tcp", "4001")].

Definition psk32 : pnet.PSK := repeat x2a 32.
Definition psk31 : pnet.PSK := repeat x2a 31.

Definition store9 : datastore.Batching :=
  {| datastore.store_id := 9; datastore.mutex_wrapped := true |}.

Definition host0 : host.Host :=
  {| host.handle := 0; host.identity := key7; host.addrs := [loopback];
     host.psk := None; host.transports := None; host.muxers := None;
     host.connManager := None |}.

(** A caller-written option: [func(cfg *libp2p.Config) error { cfg.PSK = nil; return nil }]. *)
Definition clearPSK : config.Option ipfslite.Captured :=
  fun cfg => Ok (config.set_PSK None cfg).

(** A caller-written option that installs its own router:
    [func(cfg *libp2p.Config) error { cfg.Routing = other; return nil }]. *)
Definition otherRouting : config.RoutingC ipfslite.Captured :=
  fun _ vars w => ((Ok (routing.OtherRouting "custom"), vars), w).

Definition replaceRouting : config.Option ipfslite.Captured :=
  fun cfg => Ok (config.set_Routing (Some otherRouting) cfg).

(** ** Buffered channels

    The peer source of [Libp2pOptionsExtra] works on a buffered channel:
    [make(chan T, num)], sends, and a deferred [close].  A send on a
    channel whose buffer is full blocks until a receiver arrives; inside
    the closure there is none, since the channel is handed out only when
    the closure returns. *)

Module channel.

Record Chan (A : Type) := {
  capacity : Z;
  queue : list A;
  closed : bool
}.
Arguments capacity {A} c.
Arguments queue {A} c.
Arguments closed {A} c.

(** How a piece of code working on channels ends. *)
Inductive Outcome (A : Type) : Type :=
| Returned (a : A)
| Panicked (e : Error)
| Blocked.
Arguments Returned {A} a.
Arguments Panicked {A} e.
Arguments Blocked {A}.

(** [make(chan T, n)] panics on a negative size. *)
Definition make {A} (n : Z) : result (Chan A) :=
  if (n <? 0)%Z then Err "panic: makechan: size out of range"
  else Ok {| capacity := n; queue := []; closed := false |}.

(** [c <- x] with no receiver waiting. *)
Definition send {A} (x : A) (c : Chan A) : Outcome (Chan A) :=
  if closed c then Panicked "panic: send on closed channel"
  else if (Z.of_nat (length (queue c)) <? capacity c)%Z then
    Returned {| capacity := capacity c; queue := queue c ++ [x]; closed := false |}
  else Blocked.

Definition close {A} (c : Chan A) : Chan A :=
  {| capacity := capacity c; queue := queue c; closed := true |}.

End channel.

(** The loop of the peer source,
    [for i := 0; i < num && i < len(ipfspeers); i++ { peerChan <- ipfspeers[i] }],
    entered at index [i] with [rest] the elements of [ipfspeers] from [i] on. *)
Fixpoint peerSource_loop (i num : Z) (rest : list peer.AddrInfo)
    (peerChan : channel.Chan peer.AddrInfo)
  : channel.Outcome (channel.Chan peer.AddrInfo) :=
  match rest with
  | [] => channel.Returned peerChan
  | p :: rest' =>
      if (i <? num)%Z then
        match channel.send p peerChan with
        | channel.Returned c => peerSource_loop (i + 1) num rest' c
        | channel.Panicked e => channel.Panicked e
        | channel.Blocked => channel.Blocked
        end
      else channel.Returned peerChan
  end.

(** The body of the peer source, statement by statement: make the channel,
    defer its closing, read the bootstrap peers, run the loop, return. *)
Definition peerSource_body (dht_DefaultBootstrapPeers : list multiaddr.Multiaddr)
    (o : MapOrder) (num : Z) : channel.Outcome (channel.Chan peer.AddrInfo) :=
  match channel.make num with
  | Err e => channel.Panicked e
  | Ok peerChan =>
      let ipfspeers := ipfslite.DefaultBootstrapPeers dht_DefaultBootstrapPeers o in
      match peerSource_loop 0 num ipfspeers peerChan with
      | channel.Returned c => channel.Returned (channel.close c)
      | channel.Panicked e => channel.Panicked e
      | channel.Blocked => channel.Blocked
      end
  end.

(** ** Further vocabulary *)

(** The peer identifiers named by a list of addresses. *)
Definition addr_ids (maddrs : list multiaddr.Multiaddr) : list peer.ID :=
  map (fun a => snd (peer.SplitAddr a)) maddrs.

(** The transport parts of the addresses of peer [id], in the order of the
    list; an address that is only [/p2p/id] has none. *)
Definition transports_of (id : peer.ID) (maddrs : list multiaddr.Multiaddr)
  : list multiaddr.Multiaddr :=
  omap (fun a =>
          let '(t, i) := peer.SplitAddr a in
          if String.eqb i id then
            match t with [] => None | _ => Some t end
          else None) maddrs.

(** The world after a host handle was taken. *)
Definition alloc_host (w : World) : World :=
  {| next_store := next_store w;
     next_host := S (next_host w);
     listeners := listeners w;
     running_dhts := running_dhts w |}.

(** The world in which host [hid] listens on [addrs] besides what was
    open in [w]. *)
Definition listening (hid : nat) (addrs : list multiaddr.Multiaddr) (w : World)
  : World :=
  {| next_store := next_store w;
     next_host := next_host w;
     listeners := map (fun a => (hid, a)) addrs ++ listeners w;
     running_dhts := running_dhts w |}.

(** The dual DHT that [newDHT] builds for host [h] when the allocator
    stands at [n]. *)
Definition dualFor (h : host.Host) (ds : option datastore.Batching)
    (m : dht.ModeOpt) (n : nat) : dualdht.DHT :=
  {| dualdht.WAN := ipfsInstance h m (default (fresh_store n) ds);
     dualdht.LAN := ipfsInstance h (lanMode m) (default (fresh_store (S n)) ds) |}.

(** * Properties *)

(** ** Map iteration order *)

Lemma range_from_perm {A} (fuel : nat) (o : MapOrder) (l : list A) :
  length l <= fuel -> range_from fuel o l ≡ₚ l.
Proof.
  revert o l. induction fuel as [|fuel IH]; intros o l Hlen.
  - destruct l; [reflexivity | simpl in Hlen; lia].
  - destruct l as [|x l']; [reflexivity|].
    cbn [range_from].
    set (k := match o with [] => 0 | k :: _ => k mod length (x :: l') end).
    assert (Hk : k < length (x :: l')).
    { subst k. destruct o; [simpl; lia|]. apply Nat.mod_upper_bound. simpl; lia. }
    destruct (lookup_lt_is_Some_2 (x :: l') k Hk) as [y Hy].
    rewrite (nth_lookup_Some _ _ x _ Hy).
    rewrite (delete_Permutation _ _ _ Hy) at 2.
    constructor. apply IH.
    rewrite length_delete by eauto. simpl in *. lia.
Qed.

Lemma range_map_perm {A} (o : MapOrder) (l : list A) : range_map o l ≡ₚ l.
Proof. apply range_from_perm. lia. Qed.

(** ** Bootstrap peers *)

Lemma AddrInfos_order_irrelevant (o1 o2 : MapOrder) (maddrs : list multiaddr.Multiaddr) :
  fst (peer.AddrInfosFromP2pAddrs o1 maddrs) ≡ₚ fst (peer.AddrInfosFromP2pAddrs o2 maddrs)
  /\ snd (peer.AddrInfosFromP2pAddrs o1 maddrs) = snd (peer.AddrInfosFromP2pAddrs o2 maddrs).
Proof.
  unfold peer.AddrInfosFromP2pAddrs.
  destruct (peer.group_addrs ∅ maddrs) as [m|e]; simpl; [|done].
  split; [|done].
  apply Permutation_map. by rewrite !range_map_perm.
Qed.

Lemma group_addrs_err (m : gmap peer.ID (list multiaddr.Multiaddr))
    (maddrs : list multiaddr.Multiaddr) :
  is_ok (peer.group_addrs m maddrs) = false
  <-> Exists (fun a => snd (peer.SplitAddr a) = "") maddrs.
Proof.
  revert m. induction maddrs as [|a rest IH]; intros m; simpl.
  - split; [discriminate | intros H; inversion H].
  - destruct (peer.SplitAddr a) as [transport id] eqn:Hs.
    destruct (String.eqb_spec id "") as [->|Hne]; simpl.
    + split; [|done]. intros _. left. by rewrite Hs.
    + rewrite IH. split.
      * intros H. by right.
      * intros H. inversion H as [? ? Ha|]; [|done].
        rewrite Hs in Ha. simpl in Ha. congruence.
Qed.

(** C9 (as amended): two calls of [DefaultBootstrapPeers] return the same
    peer records up to their order in the slice, whatever order the map
    iteration takes in each call; the function reads only the package
    variable [dht.DefaultBootstrapPeers] and has no state to change. *)
Theorem C9_bootstrap_peers_same_up_to_order
    (boot : list multiaddr.Multiaddr) (o1 o2 : MapOrder) :
  ipfslite.DefaultBootstrapPeers boot o1 ≡ₚ ipfslite.DefaultBootstrapPeers boot o2
  /\ length (ipfslite.DefaultBootstrapPeers boot o1)
     = length (ipfslite.DefaultBootstrapPeers boot o2)
  /\ (forall p, p ∈ ipfslite.DefaultBootstrapPeers boot o1
             <-> p ∈ ipfslite.DefaultBootstrapPeers boot o2).
Proof.
  assert (H : ipfslite.DefaultBootstrapPeers boot o1
              ≡ₚ ipfslite.DefaultBootstrapPeers boot o2).
  { unfold ipfslite.DefaultBootstrapPeers.
    pose proof (AddrInfos_order_irrelevant o1 o2 boot) as [Hp _].
    destruct (peer.AddrInfosFromP2pAddrs o1 boot), (peer.AddrInfosFromP2pAddrs o2 boot).
    exact Hp. }
  split; [exact H|]. split.
  - by rewrite H.
  - intros p. by rewrite H.
Qed.

(** C9 (as stated) fails: on the public bootstrap list, two calls whose map
    iterations take different orders return different sequences. *)
Lemma C9_counterexample :
  ipfslite.DefaultBootstrapPeers bootstrap_addrs []
  <> ipfslite.DefaultBootstrapPeers bootstrap_addrs [1].
Proof. vm_compute. discriminate. Qed.

(** C10: [DefaultBootstrapPeers] returns the slice produced by
    [peer.AddrInfosFromP2pAddrs] and drops its error: the conversion fails
    exactly when some address has no peer identifier, and the function
    then returns normally, with the empty slice. *)
Theorem C10_bootstrap_error_discarded
    (boot : list multiaddr.Multiaddr) (o : MapOrder) :
  ipfslite.DefaultBootstrapPeers boot o = fst (peer.AddrInfosFromP2pAddrs o boot)
  /\ (snd (peer.AddrInfosFromP2pAddrs o boot) = Some peer.ErrInvalidAddr
      <-> Exists (fun a => snd (peer.SplitAddr a) = "") boot)
  /\ (snd (peer.AddrInfosFromP2pAddrs o boot) = None
      \/ (snd (peer.AddrInfosFromP2pAddrs o boot) = Some peer.ErrInvalidAddr
          /\ ipfslite.DefaultBootstrapPeers boot o = [])).
Proof.
  pose proof (group_addrs_err ∅ boot) as Hg.
  unfold ipfslite.DefaultBootstrapPeers, peer.AddrInfosFromP2pAddrs in *.
  destruct (peer.group_addrs ∅ boot) as [m|e] eqn:Hm; simpl in *.
  - split; [done|]. split; [|by left].
    split; [discriminate|]. intros H. apply Hg in H. discriminate.
  - assert (e = peer.ErrInvalidAddr) as ->.
    { clear Hg. revert Hm. generalize (∅ : gmap peer.ID (list multiaddr.Multiaddr)).
      induction boot as [|a rest IH]; intros m0; simpl; [discriminate|].
      destruct (peer.SplitAddr a) as [t id].
      destruct (String.eqb id ""); [congruence | apply IH]. }
    split; [done|]. split; [|by right].
    split; [intros _; by apply Hg | done].
Qed.

(** A bootstrap list with an address that names no peer: the conversion
    fails and [DefaultBootstrapPeers] returns the empty slice. *)
Example DefaultBootstrapPeers_invalid_address :
  peer.AddrInfosFromP2pAddrs [] [loopback] = ([], Some peer.ErrInvalidAddr)
  /\ ipfslite.DefaultBootstrapPeers [loopback] [] = [].
Proof. split; reflexivity. Qed.

(** ** The dual DHT built by [newDHT] *)

Lemma ipfsValidators_lookup (h : host.Host) :
  ipfsValidators h !! "pk" = Some record.PublicKeyValidator
  /\ ipfsValidators h !! "ipns" = Some (record.IpnsValidator (host.Peerstore h))
  /\ size (ipfsValidators h) = 2
  /\ dom (ipfsValidators h) = ({["pk"; "ipns"]} : gset string).
Proof.
  unfold ipfsValidators. split; [|split; [|split]].
  - rewrite lookup_insert_ne by discriminate. apply lookup_insert_eq.
  - apply lookup_insert_eq.
  - rewrite map_size_insert_None.
    + rewrite map_size_insert_None; [by rewrite map_size_empty | apply lookup_empty].
    + rewrite lookup_insert_ne by discriminate. apply lookup_empty.
  - rewrite !dom_insert_L, dom_empty_L. set_solver.
Qed.

Lemma dht_New_standard (env : Env) (h : host.Host) (opts : list dht.Option)
    (m : dht.ModeOpt) (d : datastore.Batching) (w : World) :
  dht.apply_all opts (dht.Defaults (fresh_store (next_store w)))
  = {| dht.Validator := ipfsValidators h; dht.Concurrency_ := 10;
       dht.Mode_ := m; dht.Datastore_ := d |} ->
  dht.New env h opts w
  = match dht_err env with
    | Some e => (Err e, alloc_store w)
    | None => (Ok (ipfsInstance h m d), dht.started (host.handle h) (alloc_store w))
    end.
Proof.
  intros Hcfg.
  destruct (ipfsValidators_lookup h) as (Hpk & Hipns & Hsize & _).
  unfold dht.New, bind, ret, datastore.NewMapDatastore.
  fold (fresh_store (next_store w)). rewrite Hcfg.
  unfold dht.ApplyFallbacks, dht.Validate. cbn [dht.Validator dht.Concurrency_
    dht.Mode_ dht.Datastore_].
  rewrite Hpk, Hipns. cbn [dht.Validator]. rewrite Hsize, Hpk, Hipns.
  cbn. by destruct (dht_err env).
Qed.

(** What a run of [newDHT] does: two store allocations, and, unless the
    DHT fails to start, a pair of running instances that differ in the
    store when none was supplied and in the mode when the mode is neither
    client nor server. *)
Lemma newDHT_run (env : Env) (h : host.Host) (ds : option datastore.Batching)
    (m : dht.ModeOpt) (w : World) :
  ipfslite.newDHT env h ds m w
  = match dht_err env with
    | Some e => (Err e, alloc_store w)
    | None =>
        (Ok {| dualdht.WAN :=
                 ipfsInstance h m (default (fresh_store (next_store w)) ds);
               dualdht.LAN :=
                 ipfsInstance h (lanMode m)
                   (default (fresh_store (S (next_store w))) ds) |},
         dht.started (host.handle h)
           (alloc_store (dht.started (host.handle h) (alloc_store w))))
    end.
Proof.
  unfold ipfslite.newDHT, dualdht.New, bind.
  erewrite (dht_New_standard env h _ m (default (fresh_store (next_store w)) ds) w)
    by (destruct ds; reflexivity).
  destruct (dht_err env) as [e|] eqn:He; [reflexivity|].
  cbn [dht.IpfsDHT_Mode ipfsInstance dht.mode].
  erewrite (dht_New_standard env h _ (lanMode m)
              (default (fresh_store (S (next_store w))) ds)
              (dht.started (host.handle h) (alloc_store w)))
    by (destruct ds, m; reflexivity).
  rewrite He. reflexivity.
Qed.

(** ** Applying options *)

Lemma Apply_app {C} (a b : list (config.Option C)) (c : config.Config C) :
  config.Apply (a ++ b) c = result_bind (config.Apply a c) (config.Apply b).
Proof.
  revert c. induction a as [|o a IH]; intros c; simpl; [reflexivity|].
  destruct (o c) as [c1|e]; simpl; [apply IH | reflexivity].
Qed.

Lemma Apply_keeps {C A} (f : config.Config C -> A) (opts : list (config.Option C))
    (c c' : config.Config C) :
  Forall (keeps f) opts -> config.Apply opts c = Ok c' -> f c' = f c.
Proof.
  intros Hk. revert c. induction Hk as [|o opts Ho _ IH]; intros c; simpl.
  - by intros [= ->].
  - destruct (o c) as [c1|e] eqn:Hoc; simpl; [|discriminate].
    intros H. rewrite (IH _ H). by apply Ho.
Qed.

(** The options of [SetupLibp2p] itself always apply, whatever the
    arguments, and leave the configuration [mandatoryCfg]. *)
Lemma mandatory_Apply (env : Env) (hostKey : option crypto.PrivKey)
    (secret : option pnet.PSK) (listenAddrs : list multiaddr.Multiaddr)
    (ds : option datastore.Batching) (dhtMode : dht.ModeOpt) :
  config.Apply (ipfslite.mandatoryOpts env hostKey secret listenAddrs ds dhtMode)
    config.empty
  = Ok (mandatoryCfg env hostKey secret listenAddrs ds dhtMode).
Proof. destruct secret; reflexivity. Qed.

Lemma Muxer_add_muxer {C} (name : string) (m : network.Multiplexer)
    (c : config.Config C) :
  libp2p.Muxer name m c
  = Ok (add_muxer {| network.MuxerID := name; network.Muxer_ := m |} c).
Proof. reflexivity. Qed.

(** [SetupLibp2p] unfolded along the option list it hands to [libp2p.New]. *)
Lemma SetupLibp2p_run (env : Env) (hostKey : option crypto.PrivKey)
    (secret : option pnet.PSK) (listenAddrs : list multiaddr.Multiaddr)
    (ds : option datastore.Batching) (dhtMode : dht.ModeOpt)
    (opts : list (config.Option ipfslite.Captured)) (w : World) :
  ipfslite.SetupLibp2p env hostKey secret listenAddrs ds dhtMode opts w
  = match config.Apply opts (mandatoryCfg env hostKey secret listenAddrs ds dhtMode) with
    | Err e => ((None, None, Some e), w)
    | Ok c =>
        let '((r, vars'), w') := libp2p.NewNode env (add_muxer yamuxEntry c) vars0 w in
        match r with
        | Err e => ((None, None, Some e), w')
        | Ok h => ((Some h, ipfslite.ddht vars', None), w')
        end
    end.
Proof.
  unfold ipfslite.SetupLibp2p, libp2p.New, ipfslite.finalOpts.
  rewrite !Apply_app, mandatory_Apply. cbn [result_bind].
  destruct (config.Apply opts _) as [c|e]; reflexivity.
Qed.

(** ** Node construction *)

Lemma NewNode_ok {C} (env : Env) (cfg : config.Config C) (cl cl' : C)
    (w w' : World) (h : routedhost.RoutedHost) :
  libp2p.NewNode env cfg cl w = ((Ok h, cl'), w') ->
  host.identity (routedhost.basic h) = config.PeerKey cfg
  /\ host.addrs (routedhost.basic h) = config.ListenAddrs cfg
  /\ host.psk (routedhost.basic h) = config.PSK cfg
  /\ host.transports (routedhost.basic h) = config.Transports cfg
  /\ host.muxers (routedhost.basic h) = config.Muxers cfg
  /\ host.connManager (routedhost.basic h) = config.ConnManager cfg
  /\ match config.Routing cfg with
     | None => routedhost.router h = None /\ cl' = cl
     | Some rt =>
         exists r w2 w3,
           rt (routedhost.basic h) cl w2 = ((Ok r, cl'), w3)
           /\ routedhost.router h = Some r
           /\ next_store w2 = next_store w
     end.
Proof.
  unfold libp2p.NewNode, libp2p.start, libp2p.finish.
  destruct (libp2p.pnet_conflict cfg); [discriminate|].
  destruct (config.Routing cfg) as [rt|].
  - match goal with |- context [rt ?h0 cl ?w0] =>
      destruct (rt h0 cl w0) as [[r cl1] w3] eqn:Hrt end.
    destruct r as [r|e]; [|discriminate].
    destruct (listen_err env _); [discriminate|].
    destruct (late_err env); [discriminate|].
    intros [= <- <- <-]. cbn. repeat (split; [reflexivity|]).
    do 3 eexists. split; [exact Hrt|]. by split.
  - destruct (listen_err env _); [discriminate|].
    destruct (late_err env); [discriminate|].
    intros [= <- <- <-]. cbn. repeat (split; [reflexivity|]). done.
Qed.

Lemma Close_no_listener (h : host.Host) (w : World) :
  Forall (fun p => fst p <> host.handle h) (listeners (libp2p.Close h w)).
Proof.
  apply Forall_forall. intros p [Hp _]%list_elem_of_filter.
  destruct (Nat.eqb_spec (fst p) (host.handle h)); [done | done].
Qed.

(** A failed construction leaves no listener of the host it was building. *)
Lemma NewNode_err_listeners {C} (env : Env) (cfg : config.Config C) (cl cl' : C)
    (w w' : World) (e : Error) :
  wf_world w ->
  libp2p.NewNode env cfg cl w = ((Err e, cl'), w') ->
  Forall (fun p => fst p <> next_host w) (listeners w').
Proof.
  intros Hwf.
  assert (Hw : Forall (fun p => fst p <> next_host w) (listeners w)).
  { eapply Forall_impl; [exact Hwf|]. simpl. intros; lia. }
  unfold libp2p.NewNode, libp2p.start, libp2p.finish.
  destruct (libp2p.pnet_conflict cfg); [by intros [= <- <- <-]|].
  assert (Hclose : forall h0 w0 l,
             l = listeners (libp2p.Close h0 w0) -> host.handle h0 = next_host w ->
             Forall (fun p => fst p <> next_host w) l).
  { intros h0 w0 l -> <-. apply Close_no_listener. }
  destruct (config.Routing cfg) as [rt|].
  - match goal with |- context [rt ?h0 cl ?w0] =>
      destruct (rt h0 cl w0) as [[r cl1] w3] eqn:Hrt end.
    destruct r as [r|e1].
    + destruct (listen_err env _).
      * intros [= <- <- <-]. eapply Hclose; reflexivity.
      * destruct (late_err env); [|discriminate].
        intros [= <- <- <-]. eapply Hclose; reflexivity.
    + intros [= <- <- <-]. eapply Hclose; reflexivity.
  - destruct (listen_err env _).
    + intros [= <- <- <-]. eapply Hclose; reflexivity.
    + destruct (late_err env); [|discriminate].
      intros [= <- <- <-]. eapply Hclose; reflexivity.
Qed.

(** A node is constructed only from a configuration whose transports can
    all run with the key it carries. *)
Lemma NewNode_ok_no_conflict {C} (env : Env) (cfg : config.Config C) (cl cl' : C)
    (w w' : World) (h : routedhost.RoutedHost) :
  libp2p.NewNode env cfg cl w = ((Ok h, cl'), w') ->
  libp2p.pnet_conflict cfg = false.
Proof.
  unfold libp2p.NewNode. by destruct (libp2p.pnet_conflict cfg).
Qed.

(** The routing closure of [SetupLibp2p] succeeds only by storing the DHT
    it returns in [ddht]. *)
Lemma routingProvider_ok (env : Env) (ds : option datastore.Batching)
    (dhtMode : dht.ModeOpt) (h : host.Host) (vars vars' : ipfslite.Captured)
    (w w' : World) (r : routing.PeerRouting) :
  ipfslite.routingProvider env ds dhtMode h vars w = ((Ok r, vars'), w') ->
  exists d, ipfslite.newDHT env h ds dhtMode w = (Ok d, w')
            /\ r = routing.DualDHT d /\ ipfslite.ddht vars' = Some d.
Proof.
  unfold ipfslite.routingProvider.
  destruct (ipfslite.newDHT env h ds dhtMode w) as [[d|e] w1]; [|discriminate].
  intros [= <- <- <-]. eauto.
Qed.

(** ** Results of [SetupLibp2p] *)

(** A host is returned only after the caller's options applied and the
    node was constructed; the DHT returned with it is the value of [ddht]. *)
Lemma SetupLibp2p_host (env : Env) (hostKey : option crypto.PrivKey)
    (secret : option pnet.PSK) (listenAddrs : list multiaddr.Multiaddr)
    (ds : option datastore.Batching) (dhtMode : dht.ModeOpt)
    (opts : list (config.Option ipfslite.Captured)) (w w' : World)
    (h : routedhost.RoutedHost) (d : option dualdht.DHT) (e : option Error) :
  ipfslite.SetupLibp2p env hostKey secret listenAddrs ds dhtMode opts w
  = ((Some h, d, e), w') ->
  exists c vars',
    config.Apply opts (mandatoryCfg env hostKey secret listenAddrs ds dhtMode) = Ok c
    /\ libp2p.NewNode env (add_muxer yamuxEntry c) vars0 w = ((Ok h, vars'), w')
    /\ d = ipfslite.ddht vars' /\ e = None.
Proof.
  rewrite SetupLibp2p_run.
  destruct (config.Apply opts _) as [c|e0] eqn:Hc; [|discriminate].
  cbv zeta.
  destruct (libp2p.NewNode env _ vars0 w) as [[[h0|e0] vars'] w0] eqn:Hn;
    [|discriminate].
  intros [= <- <- <- <-]. exists c, vars'. by repeat split.
Qed.

(** The fields of the returned host are those of the configuration that
    the caller's options left, with the yamux entry appended. *)
Lemma SetupLibp2p_host_fields (env : Env) (hostKey : option crypto.PrivKey)
    (secret : option pnet.PSK) (listenAddrs : list multiaddr.Multiaddr)
    (ds : option datastore.Batching) (dhtMode : dht.ModeOpt)
    (opts : list (config.Option ipfslite.Captured)) (w w' : World)
    (h : routedhost.RoutedHost) (d : option dualdht.DHT) (e : option Error) :
  ipfslite.SetupLibp2p env hostKey secret listenAddrs ds dhtMode opts w
  = ((Some h, d, e), w') ->
  exists c,
    config.Apply opts (mandatoryCfg env hostKey secret listenAddrs ds dhtMode) = Ok c
    /\ host.psk (routedhost.basic h) = config.PSK c
    /\ host.transports (routedhost.basic h) = config.Transports c
    /\ host.muxers (routedhost.basic h)
       = Some (default [] (config.Muxers c) ++ [yamuxEntry])
    /\ host.connManager (routedhost.basic h) = config.ConnManager c.
Proof.
  intros (c & vars' & Hc & Hn & _ & _)%SetupLibp2p_host.
  apply NewNode_ok in Hn as (_ & _ & Hpsk & Htr & Hmux & Hcm & _).
  exists c. by repeat split.
Qed.

(** When the caller's options leave the routing provider in place, the
    DHT returned with the host was built by [newDHT] for that host, from
    the datastore and mode given to [SetupLibp2p], before any other store
    was allocated. *)
Lemma SetupLibp2p_dht (env : Env) (hostKey : option crypto.PrivKey)
    (secret : option pnet.PSK) (listenAddrs : list multiaddr.Multiaddr)
    (ds : option datastore.Batching) (dhtMode : dht.ModeOpt)
    (opts : list (config.Option ipfslite.Captured)) (w w' : World)
    (h : routedhost.RoutedHost) (d : option dualdht.DHT) (e : option Error) :
  ipfslite.SetupLibp2p env hostKey secret listenAddrs ds dhtMode opts w
  = ((Some h, d, e), w') ->
  Forall (keeps config.Routing) opts ->
  exists x w2 w3,
    d = Some x
    /\ routedhost.router h = Some (routing.DualDHT x)
    /\ ipfslite.newDHT env (routedhost.basic h) ds dhtMode w2 = (Ok x, w3)
    /\ next_store w2 = next_store w.
Proof.
  intros (c & vars' & Hc & Hn & -> & _)%SetupLibp2p_host Hk.
  apply NewNode_ok in Hn as (_ & _ & _ & _ & _ & _ & Hr).
  change (config.Routing (add_muxer yamuxEntry c)) with (config.Routing c) in Hr.
  rewrite (Apply_keeps _ _ _ _ Hk Hc) in Hr. cbn in Hr.
  destruct Hr as (r & w2 & w3 & Hrun & Hrouter & Hst).
  apply routingProvider_ok in Hrun as (x & Hx & -> & Hd).
  exists x, w2, w3. by repeat split.
Qed.

(** The options of [Libp2pOptionsExtra] touch neither the key, the
    transports, the routing provider nor the muxers. *)
Ltac keeps_builtin :=
  repeat constructor; intros c c' H;
  unfold libp2p.NATPortMap, libp2p.ConnectionManager,
    libp2p.EnableAutoRelayWithPeerSource, libp2p.EnableNATService in H;
  repeat match type of H with
         | context [match ?x with _ => _ end] => destruct x
         end;
  try discriminate; injection H as <-; reflexivity.

Lemma Libp2pOptionsExtra_keeps_PSK {C} (boot : list multiaddr.Multiaddr) :
  Forall (keeps config.PSK) (@ipfslite.Libp2pOptionsExtra C boot).
Proof. keeps_builtin. Qed.

Lemma Libp2pOptionsExtra_keeps_Transports {C} (boot : list multiaddr.Multiaddr) :
  Forall (keeps config.Transports) (@ipfslite.Libp2pOptionsExtra C boot).
Proof. keeps_builtin. Qed.

Lemma Libp2pOptionsExtra_keeps_Routing {C} (boot : list multiaddr.Multiaddr) :
  Forall (keeps config.Routing) (@ipfslite.Libp2pOptionsExtra C boot).
Proof. keeps_builtin. Qed.

Lemma Libp2pOptionsExtra_keeps_Muxers {C} (boot : list multiaddr.Multiaddr) :
  Forall (keeps config.Muxers) (@ipfslite.Libp2pOptionsExtra C boot).
Proof. keeps_builtin. Qed.

(** With every external step succeeding and no extra option, the assembly
    of a public host on the loopback address succeeds. *)
Example SetupLibp2p_public_loopback :
  exists h d w',
    ipfslite.SetupLibp2p env_ok key7 None [loopback] None dht.ModeAuto [] world0
    = ((Some h, Some d, None), w')
    /\ host.addrs (routedhost.basic h) = [loopback]
    /\ listeners w' = [(0, loopback)].
Proof. vm_compute. eauto 10. Qed.

(** ** Claims about the dual DHT *)

(** C5: with a nil datastore each of the two routing-table instances gets a
    store of its own, freshly allocated in memory: the stores of one
    assembly differ from each other, from every store allocated before,
    and from the stores of an assembly made afterwards; with a non-nil
    datastore both instances are bound to that store.  [newDHT] fails
    only when an instance fails to start.  The DHT that [SetupLibp2p]
    returns is bound in the same way, from the datastore it was given. *)
Theorem C5_datastore_binding (env1 env2 : Env) (h1 h2 : host.Host)
    (m1 m2 : dht.ModeOpt) (ds : datastore.Batching) (w : World)
    (hostKey : option crypto.PrivKey) (secret : option pnet.PSK)
    (listenAddrs : list multiaddr.Multiaddr) (ods : option datastore.Batching)
    (opts : list (config.Option ipfslite.Captured)) :
  (let '(r1, w1) := ipfslite.newDHT env1 h1 None m1 w in
   let '(r2, w2) := ipfslite.newDHT env2 h2 None m2 w1 in
   match r1 with
   | Err e => dht_err env1 = Some e
   | Ok d1 =>
       dht.datastore_ (dualdht.WAN d1) = fresh_store (wan_store d1)
       /\ dht.datastore_ (dualdht.LAN d1) = fresh_store (lan_store d1)
       /\ next_store w <= wan_store d1 < lan_store d1
       /\ lan_store d1 < next_store w1
       /\ match r2 with
          | Err e => dht_err env2 = Some e
          | Ok d2 =>
              next_store w1 <= wan_store d2 < lan_store d2
              /\ lan_store d2 < next_store w2
              /\ NoDup [wan_store d1; lan_store d1; wan_store d2; lan_store d2]
          end
   end)
  /\ match fst (ipfslite.newDHT env1 h1 (Some ds) m1 w) with
     | Err e => dht_err env1 = Some e
     | Ok d =>
         dht.datastore_ (dualdht.WAN d) = ds /\ dht.datastore_ (dualdht.LAN d) = ds
     end
  /\ match ipfslite.SetupLibp2p env1 hostKey secret listenAddrs ods m1 opts w with
     | ((Some h, d, _), _) =>
         Forall (keeps config.Routing) opts ->
         exists x,
           d = Some x
           /\ match ods with
              | Some ds' =>
                  dht.datastore_ (dualdht.WAN x) = ds'
                  /\ dht.datastore_ (dualdht.LAN x) = ds'
              | None =>
                  dht.datastore_ (dualdht.WAN x) = fresh_store (next_store w)
                  /\ dht.datastore_ (dualdht.LAN x) = fresh_store (S (next_store w))
              end
     | _ => True
     end.
Proof.
  split; [|split].
  - rewrite newDHT_run.
    destruct (dht_err env1) as [e1|]; [by rewrite newDHT_run; destruct (dht_err env2)|].
    rewrite newDHT_run.
    destruct (dht_err env2) as [e2|]; cbn; (split; [done|]); (split; [done|]);
      (split; [lia|]); (split; [lia|]); [done|].
    split; [lia|]. split; [lia|].
    rewrite !NoDup_cons, !not_elem_of_cons.
    repeat split; try lia; try apply not_elem_of_nil; apply NoDup_nil_2.
  - rewrite newDHT_run. by destruct (dht_err env1).
  - destruct (ipfslite.SetupLibp2p _ _ _ _ _ _ _ _) as [[[[h|] d] e] w'] eqn:E; [|done].
    intros Hk.
    destruct (SetupLibp2p_dht _ _ _ _ _ _ _ _ _ _ _ _ E Hk)
      as (x & w2 & w3 & -> & _ & Hx & Hst).
    rewrite newDHT_run in Hx.
    destruct (dht_err env1); [discriminate|]. injection Hx as <- _.
    eexists. split; [reflexivity|]. rewrite Hst. by destruct ods.
Qed.

(** C6 (as amended): [newDHT] passes to both instances alike the validator
    [pk] (public keys), the validator [ipns] (name records, keyed by the
    peerstore of the host), concurrency 10 and the caller's mode; both
    instances then have exactly these two validators and concurrency 10.
    The public (WAN) instance runs in the caller's mode.  The private
    (LAN) instance runs in it only when it is client or server: for the
    modes auto and auto-server it runs in server mode. *)
Theorem C6_newDHT_configuration (env : Env) (h : host.Host)
    (ds : option datastore.Batching) (dhtMode : dht.ModeOpt) (w : World) :
  (let opts :=
     [ dht.NamespacedValidator "pk" record.PublicKeyValidator;
       dht.NamespacedValidator "ipns" (record.IpnsValidator (host.Peerstore h));
       dht.Concurrency 10;
       dht.Mode dhtMode ]
     ++ match ds with Some d => [dht.Datastore d] | None => [] end in
   dualdht.apply_all (ipfslite.dhtOpts h ds dhtMode)
     {| dualdht.wan := []; dualdht.lan := [] |}
   = {| dualdht.wan := opts; dualdht.lan := opts |})
  /\ match fst (ipfslite.newDHT env h ds dhtMode w) with
     | Err e => dht_err env = Some e
     | Ok d =>
         Forall (fun i =>
                   dht.validator i !! "pk" = Some record.PublicKeyValidator
                   /\ dht.validator i !! "ipns"
                      = Some (record.IpnsValidator (host.Peerstore h))
                   /\ dom (dht.validator i) = ({["pk"; "ipns"]} : gset string)
                   /\ dht.alpha i = 10%Z)
                [dualdht.WAN d; dualdht.LAN d]
         /\ dht.mode (dualdht.WAN d) = dhtMode
         /\ dht.mode (dualdht.LAN d)
            = match dhtMode with
              | dht.ModeClient => dht.ModeClient
              | dht.ModeServer | dht.ModeAuto | dht.ModeAutoServer => dht.ModeServer
              end
     end.
Proof.
  split; [by destruct ds|].
  rewrite newDHT_run.
  destruct (dht_err env) as [e|]; [done|]. cbn [fst].
  destruct (ipfsValidators_lookup h) as (Hpk & Hipns & _ & Hdom).
  split; [repeat constructor; done|]. split; [reflexivity|].
  by destruct dhtMode.
Qed.

(** C6 (as stated) fails: with the mode auto, the private instance runs in
    server mode. *)
Lemma C6_counterexample :
  exists d w',
    ipfslite.newDHT env_ok host0 None dht.ModeAuto world0 = (Ok d, w')
    /\ dht.mode (dualdht.WAN d) = dht.ModeAuto
    /\ dht.mode (dualdht.LAN d) = dht.ModeServer
    /\ dht.mode (dualdht.LAN d) <> dht.ModeAuto.
Proof.
  rewrite newDHT_run. cbn. do 2 eexists. split; [reflexivity|]. by repeat split.
Qed.

(** Two runs on a concrete host: with a store supplied, and without. *)
Example newDHT_with_store :
  exists d w',
    ipfslite.newDHT env_ok host0 (Some store9) dht.ModeServer world0 = (Ok d, w')
    /\ dht.datastore_ (dualdht.WAN d) = store9
    /\ dht.datastore_ (dualdht.LAN d) = store9
    /\ dht.mode (dualdht.WAN d) = dht.ModeServer
    /\ dht.mode (dualdht.LAN d) = dht.ModeServer.
Proof. rewrite newDHT_run. cbn. eauto 10. Qed.

Example newDHT_without_store :
  exists d w',
    ipfslite.newDHT env_ok host0 None dht.ModeClient world0 = (Ok d, w')
    /\ wan_store d = 0 /\ lan_store d = 1 /\ next_store w' = 2
    /\ dht.mode (dualdht.LAN d) = dht.ModeClient.
Proof. rewrite newDHT_run. cbn. eauto 10. Qed.

(** ** Claims about the transports and the private network *)

(** With no extra option, [SetupLibp2p] succeeds whenever binding the
    addresses, starting the DHT and starting the services succeed, and the
    host it returns is configured by the program's own options. *)
Lemma SetupLibp2p_plain_success (env : Env) (hostKey : option crypto.PrivKey)
    (secret : option pnet.PSK) (listenAddrs : list multiaddr.Multiaddr)
    (ds : option datastore.Batching) (dhtMode : dht.ModeOpt) (w : World) :
  listen_err env listenAddrs = None ->
  late_err env = None ->
  dht_err env = None ->
  exists h d w',
    ipfslite.SetupLibp2p env hostKey secret listenAddrs ds dhtMode [] w
    = ((Some h, Some d, None), w')
    /\ host.psk (routedhost.basic h) = secret
    /\ host.transports (routedhost.basic h)
       = config.Transports (mandatoryCfg env hostKey secret listenAddrs ds dhtMode)
    /\ listeners w' = map (fun a => (next_host w, a)) listenAddrs ++ listeners w.
Proof.
  intros Hlisten Hlate Hdht.
  rewrite SetupLibp2p_run. cbn [config.Apply]. cbv zeta.
  unfold libp2p.NewNode.
  assert (libp2p.pnet_conflict
            (add_muxer yamuxEntry
               (mandatoryCfg env hostKey secret listenAddrs ds dhtMode)) = false)
    as -> by (by destruct secret as [[|b s]|]).
  cbn [add_muxer mandatoryCfg config.set_Muxers config.ListenAddrs config.Routing].
  unfold ipfslite.routingProvider.
  rewrite newDHT_run, Hdht. unfold libp2p.start. cbn [host.addrs].
  rewrite Hlisten. unfold libp2p.finish. rewrite Hlate.
  do 3 eexists. split; [reflexivity|]. by repeat split.
Qed.

(** C1: every call of [SetupLibp2p] hands [finalOpts] to [libp2p.New] and
    returns what that yields.  The transport option in that list (the
    fourth, whatever the caller adds) is chosen from the secret alone.
    With a secret it discards every transport configured so far and
    installs exactly TCP and WebSocket, both of which can run in a private
    network; without a secret it is [libp2p.DefaultTransports], which
    installs the full default set.  The program's own options always
    apply, and leave exactly that set in the configuration from which the
    caller's options start and from which the host is constructed; a host
    returned after options that leave the transport list alone carries
    exactly that set, and with no extra option the assembly succeeds
    whenever the external steps do. *)
Theorem C1_transport_selection (env : Env) (hostKey : option crypto.PrivKey)
    (secret : option pnet.PSK) (listenAddrs : list multiaddr.Multiaddr)
    (ds : option datastore.Batching) (dhtMode : dht.ModeOpt)
    (opts : list (config.Option ipfslite.Captured))
    (cfg : config.Config ipfslite.Captured) (w : World) :
  let chosen :=
    match secret with
    | Some _ => [network.tcp_NewTCPTransport; network.websocket_New]
    | None => [network.tcp_NewTCPTransport; network.quic_NewTransport;
               network.websocket_New; network.webtransport_New;
               network.webrtc_New]
    end in
  ipfslite.finalOpts env hostKey secret listenAddrs ds dhtMode opts !! 3
  = Some (ipfslite.transportsFor secret)
  /\ ipfslite.transportsFor None = libp2p.DefaultTransports
  /\ ipfslite.transportsFor secret cfg
     = Ok (config.set_Transports
             (Some (match secret with
                    | Some _ => chosen
                    | None => default [] (config.Transports cfg) ++ chosen
                    end)) cfg)
  /\ match secret with
     | Some _ => forallb network.supports_pnet chosen = true
     | None => chosen = libp2p.DefaultTransportList
     end
  /\ config.Transports (mandatoryCfg env hostKey secret listenAddrs ds dhtMode)
     = Some chosen
  /\ match ipfslite.SetupLibp2p env hostKey secret listenAddrs ds dhtMode [] w with
     | ((Some h, _, _), _) => host.transports (routedhost.basic h) = Some chosen
     | _ => True
     end
  /\ ipfslite.SetupLibp2p env hostKey secret listenAddrs ds dhtMode opts w
     = (let '((r, vars'), w') :=
          libp2p.New env
            (ipfslite.finalOpts env hostKey secret listenAddrs ds dhtMode opts)
            {| ipfslite.ddht := None; ipfslite.err := None |} w in
        match r with
        | Err e => ((None, None, Some e), w')
        | Ok h => ((Some h, ipfslite.ddht vars', None), w')
        end)
  /\ (exists c,
        config.Apply
          (take 5 (ipfslite.finalOpts env hostKey secret listenAddrs ds dhtMode opts))
          config.empty = Ok c
        /\ config.Transports c = Some chosen
        /\ ipfslite.SetupLibp2p env hostKey secret listenAddrs ds dhtMode opts w
           = match config.Apply
                     (drop 5 (ipfslite.finalOpts env hostKey secret listenAddrs ds
                                dhtMode opts)) c with
             | Err e => ((None, None, Some e), w)
             | Ok c' =>
                 let '((r, vars'), w') :=
                   libp2p.NewNode env c'
                     {| ipfslite.ddht := None; ipfslite.err := None |} w in
                 match r with
                 | Err e => ((None, None, Some e), w')
                 | Ok h => ((Some h, ipfslite.ddht vars', None), w')
                 end
             end)
  /\ match ipfslite.SetupLibp2p env hostKey secret listenAddrs ds dhtMode opts w with
     | ((Some h, _, _), _) =>
         Forall (keeps config.Transports) opts ->
         host.transports (routedhost.basic h) = Some chosen
     | _ => True
     end
  /\ (listen_err env listenAddrs = None ->
      late_err env = None ->
      dht_err env = None ->
      exists h d w',
        ipfslite.SetupLibp2p env hostKey secret listenAddrs ds dhtMode [] w
        = ((Some h, Some d, None), w')
        /\ host.transports (routedhost.basic h) = Some chosen).
Proof.
  intros chosen. split; [reflexivity|]. split; [reflexivity|].
  split.
  { destruct secret; [reflexivity|].
    destruct cfg as [? ? ? [ts|] ? ? ? ? ? ?]; cbn; [|reflexivity].
    by rewrite <- !app_assoc. }
  split; [destruct secret; reflexivity|].
  split; [destruct secret; reflexivity|].
  split.
  { destruct (ipfslite.SetupLibp2p _ _ _ _ _ _ _ _) as [[[[h|] d] e] w'] eqn:E; [|done].
    apply SetupLibp2p_host_fields in E as (c & [= <-] & _ & -> & _).
    by destruct secret. }
  split; [reflexivity|].
  split.
  { exists (mandatoryCfg env hostKey secret listenAddrs ds dhtMode).
    split; [apply mandatory_Apply|]. split; [by destruct secret|].
    unfold ipfslite.SetupLibp2p, libp2p.New.
    replace (ipfslite.finalOpts env hostKey secret listenAddrs ds dhtMode opts)
      with (ipfslite.mandatoryOpts env hostKey secret listenAddrs ds dhtMode
              ++ drop 5 (ipfslite.finalOpts env hostKey secret listenAddrs ds
                           dhtMode opts)) at 1 by reflexivity.
    rewrite Apply_app, mandatory_Apply. cbn [result_bind].
    by destruct (config.Apply _ _). }
  split.
  { destruct (ipfslite.SetupLibp2p _ _ _ _ _ _ _ _) as [[[[h|] d] e] w'] eqn:E; [|done].
    intros Hk. apply SetupLibp2p_host_fields in E as (c & Hc & _ & -> & _).
    rewrite (Apply_keeps _ _ _ _ Hk Hc). by destruct secret. }
  intros Hlisten Hlate Hdht.
  destruct (SetupLibp2p_plain_success env hostKey secret listenAddrs ds dhtMode w
              Hlisten Hlate Hdht) as (h & d & w' & E & _ & Ht & _).
  exists h, d, w'. split; [exact E|]. rewrite Ht. by destruct secret.
Qed.



(** With the secret in place, an option of the caller that adds QUIC makes
    the assembly fail: no host is returned. *)
Example SetupLibp2p_secret_and_quic :
  exists e w',
    ipfslite.SetupLibp2p env_ok key7 (Some psk32) [loopback] None dht.ModeAuto
      [libp2p.Transport network.quic_NewTransport] world0
    = ((None, None, Some e), w').
Proof. vm_compute. eauto. Qed.


(** C3 (as amended): [SetupLibp2p] does not look at the length of the
    secret.  Whenever the external steps succeed, a call with a non-nil
    secret of any length and no extra option returns a host carrying that
    secret, a DHT and no error, with the listen addresses bound; a key
    whose length is not 32 is rejected only when a connection is
    protected with it. *)
Theorem C3_secret_length_not_checked (env : Env) (hostKey : option crypto.PrivKey)
    (s : pnet.PSK) (listenAddrs : list multiaddr.Multiaddr)
    (ds : option datastore.Batching) (dhtMode : dht.ModeOpt) (w : World) :
  listen_err env listenAddrs = None ->
  late_err env = None ->
  dht_err env = None ->
  exists h d w',
    ipfslite.SetupLibp2p env hostKey (Some s) listenAddrs ds dhtMode [] w
    = ((Some h, Some d, None), w')
    /\ host.psk (routedhost.basic h) = Some s
    /\ listeners w' = map (fun a => (next_host w, a)) listenAddrs ++ listeners w
    /\ pnet.NewProtectedConn s
       = if Nat.eqb (length s) 32 then Ok tt else Err "expected 32 byte PSK".
Proof.
  intros Hlisten Hlate Hdht.
  rewrite SetupLibp2p_run. cbn [config.Apply]. cbv zeta.
  unfold libp2p.NewNode.
  assert (libp2p.pnet_conflict
            (add_muxer yamuxEntry
               (mandatoryCfg env hostKey (Some s) listenAddrs ds dhtMode)) = false)
    as -> by (by destruct s).
  cbn [add_muxer mandatoryCfg config.set_Muxers config.ListenAddrs config.Routing].
  unfold ipfslite.routingProvider.
  rewrite newDHT_run, Hdht. unfold libp2p.start. cbn [host.addrs].
  rewrite Hlisten. unfold libp2p.finish. rewrite Hlate.
  do 3 eexists. split; [reflexivity|]. by repeat split.
Qed.

Lemma C3_secret_length_not_checked_witness :
  length psk31 = 31
  /\ exists h d w',
       ipfslite.SetupLibp2p env_ok key7 (Some psk31) [loopback] None dht.ModeAuto [] world0
       = ((Some h, Some d, None), w')
       /\ host.psk (routedhost.basic h) = Some psk31
       /\ listeners w' = map (fun a => (next_host world0, a)) [loopback] ++ listeners world0
       /\ pnet.NewProtectedConn psk31
          = if Nat.eqb (length psk31) 32 then Ok tt else Err "expected 32 byte PSK".
Proof.
  split; [reflexivity|].
  apply (C3_secret_length_not_checked env_ok key7 psk31 [loopback] None
           dht.ModeAuto world0); reflexivity.
Defined.

(** C3 (as stated) fails: with a secret of 31 bytes the assembly returns a
    host and a DHT, no error, and has opened the listener. *)
Lemma C3_counterexample :
  length psk31 <> 32
  /\ exists h d w',
       ipfslite.SetupLibp2p env_ok key7 (Some psk31) [loopback] None dht.ModeAuto [] world0
       = ((Some h, Some d, None), w')
       /\ listeners w' = [(0, loopback)].
Proof. split; [vm_compute; lia|]. vm_compute. eauto 10. Qed.

(** ** Claims about the result *)

(** C4 (as amended): [SetupLibp2p] returns either a host with a nil error or
    a non-nil error with a nil host and a nil DHT.  In the first case the
    DHT returned is the one stored by the routing closure; when the
    caller's options leave the routing provider of the configuration in
    place, it is non-nil and is the router of the host.  In the second
    case no listener of the host under construction stays open. *)
Theorem C4_result_shape (env : Env) (hostKey : option crypto.PrivKey)
    (secret : option pnet.PSK) (listenAddrs : list multiaddr.Multiaddr)
    (ds : option datastore.Batching) (dhtMode : dht.ModeOpt)
    (opts : list (config.Option ipfslite.Captured)) (w : World) :
  wf_world w ->
  match ipfslite.SetupLibp2p env hostKey secret listenAddrs ds dhtMode opts w with
  | ((Some h, d, None), w') =>
      Forall (keeps config.Routing) opts ->
      exists x, d = Some x /\ routedhost.router h = Some (routing.DualDHT x)
  | ((None, None, Some e), w') =>
      Forall (fun p => fst p <> next_host w) (listeners w')
  | _ => False
  end.
Proof.
  intros Hwf. rewrite SetupLibp2p_run.
  destruct (config.Apply opts _) as [c|e] eqn:Hc.
  - cbv zeta.
    destruct (libp2p.NewNode env _ vars0 w) as [[[h|e] vars'] w'] eqn:Hn.
    + intros Hk. apply NewNode_ok in Hn as (_ & _ & _ & _ & _ & _ & Hr).
      assert (config.Routing (add_muxer yamuxEntry c)
              = Some (ipfslite.routingProvider env ds dhtMode)) as Hrt.
      { change (config.Routing (add_muxer yamuxEntry c)) with (config.Routing c).
        by rewrite (Apply_keeps _ _ _ _ Hk Hc). }
      rewrite Hrt in Hr. destruct Hr as (r & w2 & w3 & Hrun & Hrouter & _).
      apply routingProvider_ok in Hrun as (x & _ & -> & Hx).
      exists x. by rewrite Hx.
    + by eapply NewNode_err_listeners.
  - eapply Forall_impl; [exact Hwf|]. simpl. intros; lia.
Qed.

Lemma C4_result_shape_witness :
  wf_world world0
  /\ exists h x w',
       ipfslite.SetupLibp2p env_ok key7 None [loopback] None dht.ModeAuto
         (ipfslite.Libp2pOptionsExtra bootstrap_addrs) world0
       = ((Some h, Some x, None), w')
       /\ routedhost.router h = Some (routing.DualDHT x).
Proof.
  assert (Hwf : wf_world world0) by constructor.
  split; [exact Hwf|].
  pose proof (C4_result_shape env_ok key7 None [loopback] None dht.ModeAuto
                (ipfslite.Libp2pOptionsExtra bootstrap_addrs) world0 Hwf) as H.
  destruct (ipfslite.SetupLibp2p _ _ _ _ _ _ _ _) as [[[[h|] d] [e|]] w'] eqn:E.
  - exfalso; exact H.
  - destruct (H (Libp2pOptionsExtra_keeps_Routing bootstrap_addrs)) as (x & -> & Hr).
    exists h, x, w'. split; [reflexivity | exact Hr].
  - exfalso. clear H. vm_compute in E. discriminate E.
  - exfalso. destruct d; exact H.
Defined.

(** C4 (as stated) fails, in each of its two cases.  When an option of the
    caller installs its own router, the assembly succeeds and returns a
    host with a nil DHT.  When the listen address cannot be bound, the
    assembly returns the error with a nil host and a nil DHT, and the two
    DHT instances that the routing closure had started for the host are
    still running. *)
Lemma C4_counterexample :
  (exists h w',
     ipfslite.SetupLibp2p env_ok key7 None [loopback] None dht.ModeAuto
       [replaceRouting] world0
     = ((Some h, None, None), w'))
  /\ (exists e w',
        ipfslite.SetupLibp2p env_port_taken key7 None [loopback] None dht.ModeAuto
          [] world0
        = ((None, None, Some e), w')
        /\ listeners w' = []
        /\ running_dhts w' = [0; 0]).
Proof. split; vm_compute; eauto 10. Qed.

(** ** Claims about the muxer and the connection manager *)

(** C7 (as amended): [SetupLibp2p] registers one stream muxer of its own,
    after every option of the caller: yamux under ["/yamux/1.0.0"] with a
    stream window of 4 MiB, an accept backlog of 128, keep-alive every 15
    seconds and messages of at most 16 MiB, the same in every call.  It is
    the last muxer of the host, after those that the caller's options
    registered, and the only one when they register none. *)
Theorem C7_yamux_profile (env : Env) (hostKey : option crypto.PrivKey)
    (secret : option pnet.PSK) (listenAddrs : list multiaddr.Multiaddr)
    (ds : option datastore.Batching) (dhtMode : dht.ModeOpt)
    (opts : list (config.Option ipfslite.Captured)) (w : World) :
  yamuxEntry
  = {| network.MuxerID := "/yamux/1.0.0";
       network.Muxer_ :=
         network.YamuxTransport
           {| yamux.AcceptBacklog := 128;
              yamux.EnableKeepAlive := true;
              yamux.KeepAliveInterval := (15 * 1000000000)%Z;
              yamux.MaxStreamWindowSize := 4 * 2 ^ 20;
              yamux.MaxMessageSize := 16 * 2 ^ 20;
              yamux.LogOutput := yamux.Discard |} |}
  /\ last (ipfslite.finalOpts env hostKey secret listenAddrs ds dhtMode opts)
     = Some (libp2p.Muxer "/yamux/1.0.0" ipfslite.yamuxTransport)
  /\ config.Muxers (mandatoryCfg env hostKey secret listenAddrs ds dhtMode) = None
  /\ match ipfslite.SetupLibp2p env hostKey secret listenAddrs ds dhtMode opts w with
     | ((Some h, _, _), _) =>
         exists earlier,
           host.muxers (routedhost.basic h) = Some (earlier ++ [yamuxEntry])
           /\ (Forall (keeps config.Muxers) opts -> earlier = [])
     | _ => True
     end
  /\ match ipfslite.SetupLibp2p env hostKey secret listenAddrs ds dhtMode [] w with
     | ((Some h, _, _), _) => host.muxers (routedhost.basic h) = Some [yamuxEntry]
     | _ => True
     end.
Proof.
  split; [reflexivity|].
  split; [unfold ipfslite.finalOpts; apply last_snoc|].
  split; [reflexivity|]. split.
  - destruct (ipfslite.SetupLibp2p _ _ _ _ _ _ _ _) as [[[[h|] d] e] w'] eqn:E; [|done].
    apply SetupLibp2p_host_fields in E as (c & Hc & _ & _ & Hm & _).
    exists (default [] (config.Muxers c)). split; [exact Hm|].
    intros Hk. by rewrite (Apply_keeps _ _ _ _ Hk Hc).
  - destruct (ipfslite.SetupLibp2p _ _ _ _ _ _ [] _) as [[[[h|] d] e] w'] eqn:E; [|done].
    by apply SetupLibp2p_host_fields in E as (c & [= <-] & _ & _ & -> & _).
Qed.

(** C7 (as stated) fails: when the caller registers a muxer, the host has
    two. *)
Lemma C7_counterexample :
  exists h d w',
    ipfslite.SetupLibp2p env_ok key7 None [loopback] None dht.ModeAuto
      [libp2p.Muxer "/mplex/6.7.0" (network.OtherMultiplexer "mplex")] world0
    = ((Some h, d, None), w')
    /\ host.muxers (routedhost.basic h)
       = Some [ {| network.MuxerID := "/mplex/6.7.0";
                   network.Muxer_ := network.OtherMultiplexer "mplex" |};
                yamuxEntry ].
Proof. vm_compute. eauto 10. Qed.

(** C8 (as amended): the connection manager [connMgr] is built once, as a
    package variable, with low watermark 100, high watermark 600 and a
    grace period of one minute.  [SetupLibp2p] does not configure it: it
    is one of [Libp2pOptionsExtra].  A host assembled with these as the
    extra options has it attached; a host assembled with no extra option
    has no connection manager configured by the program. *)
Theorem C8_connection_manager (env : Env) (hostKey : option crypto.PrivKey)
    (secret : option pnet.PSK) (listenAddrs : list multiaddr.Multiaddr)
    (ds : option datastore.Batching) (dhtMode : dht.ModeOpt)
    (boot : list multiaddr.Multiaddr) (w : World) :
  (exists m, ipfslite.connMgr = Some m
             /\ connmgr.lowWater m = 100%Z
             /\ connmgr.highWater m = 600%Z
             /\ connmgr.gracePeriod m = time.Minute)
  /\ time.Minute = 60000000000%Z
  /\ config.ConnManager (mandatoryCfg env hostKey secret listenAddrs ds dhtMode) = None
  /\ @ipfslite.Libp2pOptionsExtra ipfslite.Captured boot !! 1
     = Some (libp2p.ConnectionManager ipfslite.connMgr)
  /\ match ipfslite.SetupLibp2p env hostKey secret listenAddrs ds dhtMode
             (ipfslite.Libp2pOptionsExtra boot) w with
     | ((Some h, _, _), _) => host.connManager (routedhost.basic h) = ipfslite.connMgr
     | _ => True
     end
  /\ match ipfslite.SetupLibp2p env hostKey secret listenAddrs ds dhtMode [] w with
     | ((Some h, _, _), _) => host.connManager (routedhost.basic h) = None
     | _ => True
     end.
Proof.
  split; [eexists; split; [reflexivity|]; by repeat split|].
  split; [reflexivity|]. split; [reflexivity|].
  split; [reflexivity|]. split.
  - destruct (ipfslite.SetupLibp2p _ _ _ _ _ _ _ _) as [[[[h|] d] e] w'] eqn:E; [|done].
    by apply SetupLibp2p_host_fields in E as (c & [= <-] & _ & _ & _ & ->).
  - destruct (ipfslite.SetupLibp2p _ _ _ _ _ _ [] _) as [[[[h|] d] e] w'] eqn:E; [|done].
    by apply SetupLibp2p_host_fields in E as (c & [= <-] & _ & _ & _ & ->).
Qed.

(** C8 (as stated) fails: a successful assembly with no extra option
    returns a host to which [connMgr] is not attached. *)
Lemma C8_counterexample :
  exists h d w',
    ipfslite.SetupLibp2p env_ok key7 None [loopback] None dht.ModeAuto [] world0
    = ((Some h, d, None), w')
    /\ host.connManager (routedhost.basic h) = None
    /\ host.connManager (routedhost.basic h) <> ipfslite.connMgr.
Proof. vm_compute. do 3 eexists. split; [reflexivity|]. split; [reflexivity|]. discriminate. Qed.

(** With [Libp2pOptionsExtra] the same assembly attaches the manager. *)
Example SetupLibp2p_with_extra_options :
  exists h d w',
    ipfslite.SetupLibp2p env_ok key7 None [loopback] None dht.ModeAuto
      (ipfslite.Libp2pOptionsExtra bootstrap_addrs) world0
    = ((Some h, Some d, None), w')
    /\ host.connManager (routedhost.basic h) = ipfslite.connMgr
    /\ host.muxers (routedhost.basic h) = Some [yamuxEntry].
Proof. vm_compute. eauto 10. Qed.

(** * Further properties *)

(** ** The in-memory datastore *)

Lemma NewInMemoryDatastore_run (w : World) :
  ipfslite.NewInMemoryDatastore w = (fresh_store (next_store w), alloc_store w).
Proof. reflexivity. Qed.

(** X1: every call of [NewInMemoryDatastore] returns a mutex-wrapped store
    that no earlier allocation returned, so two calls return different
    stores; nothing but the allocator changes.  A dual DHT built on such
    a store has both its instances bound to it. *)
Theorem X1_NewInMemoryDatastore_fresh (env : Env) (h : host.Host)
    (m : dht.ModeOpt) (w : World) :
  let '(d1, w1) := ipfslite.NewInMemoryDatastore w in
  let '(d2, w2) := ipfslite.NewInMemoryDatastore w1 in
  datastore.mutex_wrapped d1 = true
  /\ next_store w <= datastore.store_id d1 < next_store w1
  /\ next_store w1 <= datastore.store_id d2 < next_store w2
  /\ d1 <> d2
  /\ listeners w2 = listeners w
  /\ next_host w2 = next_host w
  /\ running_dhts w2 = running_dhts w
  /\ match fst (ipfslite.newDHT env h (Some d1) m w1) with
     | Ok x =>
         dht.datastore_ (dualdht.WAN x) = d1 /\ dht.datastore_ (dualdht.LAN x) = d1
     | Err e => dht_err env = Some e
     end.
Proof.
  rewrite NewInMemoryDatastore_run. cbv beta iota.
  rewrite NewInMemoryDatastore_run. cbv beta iota.
  rewrite newDHT_run.
  split; [reflexivity|]. split; [simpl; lia|]. split; [simpl; lia|].
  split; [intros [= H]; lia|].
  do 3 (split; [reflexivity|]).
  by destruct (dht_err env).
Qed.

(** ** The auto-relay peer source *)

Lemma peerSource_loop_fills (num : Z) (rest : list peer.AddrInfo)
    (q : list peer.AddrInfo) :
  (Z.of_nat (length q) <= num)%Z ->
  peerSource_loop (Z.of_nat (length q)) num rest
    {| channel.capacity := num; channel.queue := q; channel.closed := false |}
  = channel.Returned
      {| channel.capacity := num;
         channel.queue := q ++ take (Z.to_nat (num - Z.of_nat (length q))) rest;
         channel.closed := false |}.
Proof.
  revert q. induction rest as [|p rest IH]; intros q Hlen.
  - cbn [peerSource_loop]. by rewrite take_nil, app_nil_r.
  - cbn [peerSource_loop]. unfold channel.send.
    cbn [channel.closed channel.queue channel.capacity].
    destruct (Z.ltb_spec (Z.of_nat (length q)) num) as [Hlt|Hge].
    + replace (Z.of_nat (length q) + 1)%Z with (Z.of_nat (length (q ++ [p])))
        by (rewrite length_app; simpl; lia).
      rewrite IH by (rewrite length_app; simpl; lia).
      rewrite length_app. cbn [length].
      replace (Z.to_nat (num - Z.of_nat (length q)))
        with (S (Z.to_nat (num - Z.of_nat (length q + 1)))) by lia.
      cbn [take]. by rewrite <- app_assoc.
    + replace (Z.to_nat (num - Z.of_nat (length q))) with 0 by lia.
      by rewrite take_0, app_nil_r.
Qed.


(** ** Grouping of the bootstrap addresses *)

Lemma add_addr_lookup (m : gmap peer.ID (list multiaddr.Multiaddr))
    (t : multiaddr.Multiaddr) (i id : peer.ID) :
  peer.add_addr m t i !! id
  = if decide (id = i) then
      Some (default [] (m !! i) ++ match t with [] => [] | _ => [t] end)
    else m !! id.
Proof.
  unfold peer.add_addr. destruct (decide (id = i)) as [->|Hne].
  - destruct t as [|c t].
    + rewrite app_nil_r. destruct (m !! i) eqn:Hi; [done|]. apply lookup_insert_eq.
    + apply lookup_insert_eq.
  - destruct t as [|c t].
    + destruct (m !! i); [done|]. by rewrite lookup_insert_ne.
    + by rewrite lookup_insert_ne.
Qed.

Lemma transports_of_cons (id : peer.ID) (a : multiaddr.Multiaddr)
    (rest : list multiaddr.Multiaddr) :
  transports_of id (a :: rest)
  = (if String.eqb (snd (peer.SplitAddr a)) id
     then match fst (peer.SplitAddr a) with [] => [] | t => [t] end
     else [])
    ++ transports_of id rest.
Proof.
  unfold transports_of. cbn [omap list_omap].
  destruct (peer.SplitAddr a) as [t i]. cbn [fst snd].
  destruct (String.eqb i id); [|reflexivity]. by destruct t.
Qed.

(** The map built by the grouping loop: under every identifier named by
    the addresses, the transport parts of its addresses, in order. *)
Lemma group_addrs_lookup (maddrs : list multiaddr.Multiaddr)
    (m m' : gmap peer.ID (list multiaddr.Multiaddr)) (id : peer.ID) :
  peer.group_addrs m maddrs = Ok m' ->
  m' !! id
  = match m !! id with
    | Some x => Some (x ++ transports_of id maddrs)
    | None =>
        if bool_decide (id ∈ addr_ids maddrs)
        then Some (transports_of id maddrs) else None
    end.
Proof.
  revert m. induction maddrs as [|a rest IH]; intros m.
  - cbn. intros [= <-]. destruct (m !! id); [by rewrite app_nil_r | done].
  - cbn [peer.group_addrs]. rewrite transports_of_cons.
    unfold addr_ids. cbn [map]. fold (addr_ids rest).
    destruct (peer.SplitAddr a) as [t i]. cbn [fst snd].
    destruct (String.eqb_spec i "") as [->|Hi]; [discriminate|].
    intros H. rewrite (IH _ H), add_addr_lookup.
    destruct (decide (id = i)) as [->|Hne].
    + rewrite String.eqb_refl.
      rewrite bool_decide_eq_true_2 by (left).
      destruct (m !! i) as [x|]; cbn [default].
      * rewrite <- app_assoc. by destruct t.
      * by destruct t.
    + destruct (String.eqb_spec i id) as [->|_]; [done|]. cbn [app].
      destruct (m !! id); [done|].
      rewrite (bool_decide_ext (id ∈ i :: addr_ids rest) (id ∈ addr_ids rest));
        [done|].
      rewrite elem_of_cons. split; [intros [?|?]; [congruence|done] | by right].
Qed.

(** X3: when every bootstrap address names a peer, [DefaultBootstrapPeers]
    returns one record for each peer named, and no two records for the
    same peer; the record of a peer holds the transport parts of all its
    addresses, in the order of the list. *)
Theorem X3_bootstrap_peers_grouped (boot : list multiaddr.Multiaddr) (o : MapOrder) :
  Forall (fun a => snd (peer.SplitAddr a) <> "") boot ->
  NoDup (map peer.ID_ (ipfslite.DefaultBootstrapPeers boot o))
  /\ (forall p,
        p ∈ ipfslite.DefaultBootstrapPeers boot o
        <-> peer.ID_ p ∈ addr_ids boot
            /\ peer.Addrs p = transports_of (peer.ID_ p) boot)
  /\ length (ipfslite.DefaultBootstrapPeers boot o) <= length boot.
Proof.
  intros Hvalid.
  unfold ipfslite.DefaultBootstrapPeers, peer.AddrInfosFromP2pAddrs.
  destruct (peer.group_addrs ∅ boot) as [m|e] eqn:Hm.
  2:{ exfalso. assert (He : is_ok (peer.group_addrs ∅ boot) = false) by by rewrite Hm.
      apply group_addrs_err in He. apply Exists_exists in He as (a & Ha & Hbad).
      rewrite Forall_forall in Hvalid. apply (Hvalid a); [|done].
      first [exact Ha | by apply list_elem_of_In]. }
  set (mk := fun '(id, addrs) => {| peer.ID_ := id; peer.Addrs := addrs |}).
  assert (Hids : map peer.ID_ (map mk (range_map o (map_to_list m)))
                 = map fst (range_map o (map_to_list m))).
  { rewrite map_map. apply map_ext. by intros [??]. }
  assert (Hnd : NoDup (map peer.ID_ (map mk (range_map o (map_to_list m))))).
  { rewrite Hids, range_map_perm. apply NoDup_fst_map_to_list. }
  assert (Hmem : forall p, p ∈ map mk (range_map o (map_to_list m))
                 <-> peer.ID_ p ∈ addr_ids boot
                     /\ peer.Addrs p = transports_of (peer.ID_ p) boot).
  { intros [id addrs]. cbn [peer.ID_ peer.Addrs].
    rewrite list_elem_of_fmap. setoid_rewrite range_map_perm.
    split.
    - intros ([id' addrs'] & [= -> ->] & Hin%elem_of_map_to_list).
      rewrite (group_addrs_lookup _ _ _ id' Hm), lookup_empty in Hin.
      case_bool_decide; [|done]. by injection Hin as <-.
    - intros [Hin ->]. exists (id, transports_of id boot). split; [done|].
      apply elem_of_map_to_list.
      rewrite (group_addrs_lookup _ _ _ id Hm), lookup_empty.
      by rewrite bool_decide_eq_true_2. }
  split; [exact Hnd|]. split; [exact Hmem|].
  rewrite <- (length_map peer.ID_), <- (length_map (fun a => snd (peer.SplitAddr a)) boot).
  apply submseteq_length, NoDup_submseteq; [exact Hnd|].
  intros id (p & -> & Hp)%list_elem_of_fmap. by apply Hmem in Hp as [? _].
Qed.

Lemma X3_bootstrap_peers_grouped_witness :
  Forall (fun a => snd (peer.SplitAddr a) <> "") bootstrap_addrs
  /\ NoDup (map peer.ID_ (ipfslite.DefaultBootstrapPeers bootstrap_addrs [2]))
  /\ (forall p,
        p ∈ ipfslite.DefaultBootstrapPeers bootstrap_addrs [2]
        <-> peer.ID_ p ∈ addr_ids bootstrap_addrs
            /\ peer.Addrs p = transports_of (peer.ID_ p) bootstrap_addrs)
  /\ length (ipfslite.DefaultBootstrapPeers bootstrap_addrs [2])
     <= length bootstrap_addrs.
Proof.
  assert (H : Forall (fun a => snd (peer.SplitAddr a) <> "") bootstrap_addrs)
    by (repeat constructor; discriminate).
  split; [exact H|].
  exact (X3_bootstrap_peers_grouped bootstrap_addrs [2] H).
Defined.

(** ** Successful assemblies *)

(** What a successful node construction has done. *)
Lemma NewNode_success {C} (env : Env) (cfg : config.Config C) (cl cl' : C)
    (w w' : World) (h : routedhost.RoutedHost) :
  libp2p.NewNode env cfg cl w = ((Ok h, cl'), w') ->
  host.handle (routedhost.basic h) = next_host w
  /\ listen_err env (config.ListenAddrs cfg) = None
  /\ late_err env = None
  /\ match config.Routing cfg with
     | None =>
         cl' = cl
         /\ w' = listening (next_host w) (config.ListenAddrs cfg) (alloc_host w)
     | Some rt =>
         exists r w2,
           rt (routedhost.basic h) cl (alloc_host w) = ((Ok r, cl'), w2)
           /\ w' = listening (next_host w) (config.ListenAddrs cfg) w2
     end.
Proof.
  unfold libp2p.NewNode, libp2p.start, libp2p.finish.
  destruct (libp2p.pnet_conflict cfg); [discriminate|].
  destruct (config.Routing cfg) as [rt|].
  - match goal with |- context [rt ?h0 cl ?w0] =>
      destruct (rt h0 cl w0) as [[r cl1] w3] eqn:Hrt end.
    destruct r as [r|e]; [|discriminate].
    cbn [host.addrs host.handle].
    destruct (listen_err env _); [discriminate|].
    destruct (late_err env); [discriminate|].
    intros [= <- <- <-]. cbn. repeat (split; [reflexivity|]).
    exists r, w3. by split.
  - cbn [host.addrs host.handle].
    destruct (listen_err env _); [discriminate|].
    destruct (late_err env); [discriminate|].
    intros [= <- <- <-]. cbn. by repeat split.
Qed.


Lemma Libp2pOptionsExtra_keeps_PeerKey {C} (boot : list multiaddr.Multiaddr) :
  Forall (keeps config.PeerKey) (@ipfslite.Libp2pOptionsExtra C boot).
Proof. keeps_builtin. Qed.

Lemma Libp2pOptionsExtra_keeps_ListenAddrs {C} (boot : list multiaddr.Multiaddr) :
  Forall (keeps config.ListenAddrs) (@ipfslite.Libp2pOptionsExtra C boot).
Proof. keeps_builtin. Qed.


(** X5: when the caller's options leave the routing provider in place, the
    dual DHT returned by a successful assembly is the router of the
    returned host, and both its instances serve that host: they carry its
    handle, validate name records against its peerstore and public-key
    records with the public-key validator, and query with concurrency 10.
    The public instance runs in the mode given to [SetupLibp2p]. *)
Theorem X5_dht_serves_returned_host (env : Env) (hostKey : option crypto.PrivKey)
    (secret : option pnet.PSK) (listenAddrs : list multiaddr.Multiaddr)
    (ds : option datastore.Batching) (dhtMode : dht.ModeOpt)
    (opts : list (config.Option ipfslite.Captured)) (w w' : World)
    (h : routedhost.RoutedHost) (d : option dualdht.DHT) (e : option Error) :
  Forall (keeps config.Routing) opts ->
  ipfslite.SetupLibp2p env hostKey secret listenAddrs ds dhtMode opts w
  = ((Some h, d, e), w') ->
  exists x,
    d = Some x
    /\ routedhost.router h = Some (routing.DualDHT x)
    /\ Forall (fun i =>
                 dht.self i = host.handle (routedhost.basic h)
                 /\ dht.validator i !! "ipns"
                    = Some (record.IpnsValidator (host.Peerstore (routedhost.basic h)))
                 /\ dht.validator i !! "pk" = Some record.PublicKeyValidator
                 /\ dht.alpha i = 10%Z)
              [dualdht.WAN x; dualdht.LAN x]
    /\ dht.mode (dualdht.WAN x) = dhtMode.
Proof.
  intros Hrt E.
  destruct (SetupLibp2p_dht _ _ _ _ _ _ _ _ _ _ _ _ E Hrt)
    as (x & w2 & w3 & -> & Hrouter & Hx & _).
  rewrite newDHT_run in Hx. destruct (dht_err env); [discriminate|].
  injection Hx as <- _.
  destruct (ipfsValidators_lookup (routedhost.basic h)) as (Hpk & Hipns & _ & _).
  eexists. split; [reflexivity|]. split; [exact Hrouter|].
  split; [repeat constructor; done | reflexivity].
Qed.

Lemma X5_dht_serves_returned_host_witness :
  exists h x w',
    ipfslite.SetupLibp2p env_ok key7 None [loopback] (Some store9) dht.ModeClient
      (ipfslite.Libp2pOptionsExtra bootstrap_addrs) world0
    = ((Some h, Some x, None), w')
    /\ routedhost.router h = Some (routing.DualDHT x)
    /\ Forall (fun i =>
                 dht.self i = host.handle (routedhost.basic h)
                 /\ dht.validator i !! "ipns"
                    = Some (record.IpnsValidator (host.Peerstore (routedhost.basic h)))
                 /\ dht.validator i !! "pk" = Some record.PublicKeyValidator
                 /\ dht.alpha i = 10%Z)
              [dualdht.WAN x; dualdht.LAN x]
    /\ dht.mode (dualdht.WAN x) = dht.ModeClient.
Proof.
  destruct (ipfslite.SetupLibp2p env_ok key7 None [loopback] (Some store9)
              dht.ModeClient (ipfslite.Libp2pOptionsExtra bootstrap_addrs) world0)
    as [[[[h|] d] [e|]] w'] eqn:E.
  - exfalso. vm_compute in E. discriminate E.
  - destruct (X5_dht_serves_returned_host _ _ _ _ _ _ _ _ _ _ _ _
                (Libp2pOptionsExtra_keeps_Routing bootstrap_addrs) E)
      as (x & -> & H).
    exists h, x, w'. split; [reflexivity | exact H].
  - exfalso. vm_compute in E. discriminate E.
  - exfalso. vm_compute in E. discriminate E.
Defined.

(** ** Failed assemblies *)

(** X6: when the DHT starts but the listen addresses cannot be bound, an
    assembly without extra options returns an error, no host and no DHT,
    and the two DHT instances that its routing closure had started are
    still running: nothing closes them. *)
Theorem X6_dht_left_running_on_listen_failure (env : Env)
    (hostKey : option crypto.PrivKey) (secret : option pnet.PSK)
    (listenAddrs : list multiaddr.Multiaddr)
    (ds : option datastore.Batching) (dhtMode : dht.ModeOpt) (w : World)
    (e : Error) :
  dht_err env = None ->
  listen_err env listenAddrs = Some e ->
  exists e' w',
    ipfslite.SetupLibp2p env hostKey secret listenAddrs ds dhtMode [] w
    = ((None, None, Some e'), w')
    /\ running_dhts w' = next_host w :: next_host w :: running_dhts w
    /\ next_store w' = S (S (next_store w)).
Proof.
  intros Hdht Hlisten.
  rewrite SetupLibp2p_run. cbn [config.Apply]. cbv zeta.
  unfold libp2p.NewNode.
  assert (libp2p.pnet_conflict
            (add_muxer yamuxEntry
               (mandatoryCfg env hostKey secret listenAddrs ds dhtMode)) = false)
    as -> by (by destruct secret as [[|b s]|]).
  cbn [add_muxer mandatoryCfg config.set_Muxers config.ListenAddrs config.Routing].
  unfold ipfslite.routingProvider.
  rewrite newDHT_run, Hdht. unfold libp2p.start. cbn [host.addrs].
  rewrite Hlisten.
  do 2 eexists. split; [reflexivity|]. by split.
Qed.

Lemma X6_dht_left_running_witness :
  exists e' w',
    ipfslite.SetupLibp2p env_port_taken key7 None [loopback] None dht.ModeAuto [] world0
    = ((None, None, Some e'), w')
    /\ running_dhts w' = next_host world0 :: next_host world0 :: running_dhts world0
    /\ next_store w' = S (S (next_store world0)).
Proof.
  apply (X6_dht_left_running_on_listen_failure env_port_taken key7 None [loopback]
           None dht.ModeAuto world0 "listen: address already in use");
    reflexivity.
Defined.

(** ** Options that the caller repeats *)

(** When the caller's options fail to apply, nothing is built: the error
    is returned and the world is as before. *)
Lemma SetupLibp2p_option_error (env : Env) (hostKey : option crypto.PrivKey)
    (secret : option pnet.PSK) (listenAddrs : list multiaddr.Multiaddr)
    (ds : option datastore.Batching) (dhtMode : dht.ModeOpt)
    (opts : list (config.Option ipfslite.Captured)) (w : World) (e : Error) :
  config.Apply opts (mandatoryCfg env hostKey secret listenAddrs ds dhtMode) = Err e ->
  ipfslite.SetupLibp2p env hostKey secret listenAddrs ds dhtMode opts w
  = ((None, None, Some e), w).
Proof. intros H. by rewrite SetupLibp2p_run, H. Qed.

(** An option that fails on every configuration in which the field [f] is
    set, placed after options that keep [f], makes the list fail. *)
Lemma Apply_rejected {C A} (f : config.Config C -> option A)
    (pre post : list (config.Option C)) (o : config.Option C)
    (c : config.Config C) :
  Forall (keeps f) pre ->
  is_Some (f c) ->
  (forall c', is_Some (f c') -> is_ok (o c') = false) ->
  is_ok (config.Apply (pre ++ o :: post) c) = false.
Proof.
  intros Hk Hf Ho. rewrite Apply_app.
  destruct (config.Apply pre c) as [c1|e] eqn:Hc; [|reflexivity].
  cbn [result_bind config.Apply].
  specialize (Ho c1). rewrite (Apply_keeps _ _ _ _ Hk Hc) in Ho.
  specialize (Ho Hf). by destruct (o c1).
Qed.

(** X7: the routing provider cannot be given twice.  Whatever the other
    arguments, when the caller passes [libp2p.Routing] after options that
    leave the routing provider in place, [SetupLibp2p] returns an error,
    no host and no DHT, and has built nothing. *)
Theorem X7_second_routing_rejected (env : Env) (hostKey : option crypto.PrivKey)
    (secret : option pnet.PSK) (listenAddrs : list multiaddr.Multiaddr)
    (ds : option datastore.Batching) (dhtMode : dht.ModeOpt)
    (pre post : list (config.Option ipfslite.Captured))
    (rt : config.RoutingC ipfslite.Captured) (w : World) :
  Forall (keeps config.Routing) pre ->
  exists e,
    ipfslite.SetupLibp2p env hostKey secret listenAddrs ds dhtMode
      (pre ++ libp2p.Routing rt :: post) w
    = ((None, None, Some e), w).
Proof.
  intros Hk.
  pose proof (Apply_rejected config.Routing pre post (libp2p.Routing rt)
                (mandatoryCfg env hostKey secret listenAddrs ds dhtMode) Hk) as H.
  destruct (config.Apply (pre ++ libp2p.Routing rt :: post) _) as [c|e] eqn:Hc.
  - exfalso. enough (true = false) by discriminate. apply H; [by eexists|].
    intros c' [x Hx]. unfold libp2p.Routing. by rewrite Hx.
  - exists e. by apply SetupLibp2p_option_error.
Qed.

Lemma X7_second_routing_rejected_witness :
  exists e,
    ipfslite.SetupLibp2p env_ok key7 None [loopback] None dht.ModeAuto
      (ipfslite.Libp2pOptionsExtra bootstrap_addrs
         ++ libp2p.Routing otherRouting :: []) world0
    = ((None, None, Some e), world0).
Proof.
  exact (X7_second_routing_rejected env_ok key7 None [loopback] None dht.ModeAuto
           (ipfslite.Libp2pOptionsExtra bootstrap_addrs) [] otherRouting world0
           (Libp2pOptionsExtra_keeps_Routing bootstrap_addrs)).
Defined.

(** X8: with a non-nil key, the identity cannot be given again.  When the
    caller passes [libp2p.Identity] after options that leave the identity
    in place, [SetupLibp2p] returns an error, no host and no DHT, and has
    built nothing. *)
Theorem X8_second_identity_rejected (env : Env) (k : crypto.PrivKey)
    (secret : option pnet.PSK) (listenAddrs : list multiaddr.Multiaddr)
    (ds : option datastore.Batching) (dhtMode : dht.ModeOpt)
    (pre post : list (config.Option ipfslite.Captured))
    (sk : option crypto.PrivKey) (w : World) :
  Forall (keeps config.PeerKey) pre ->
  exists e,
    ipfslite.SetupLibp2p env (Some k) secret listenAddrs ds dhtMode
      (pre ++ libp2p.Identity sk :: post) w
    = ((None, None, Some e), w).
Proof.
  intros Hk.
  pose proof (Apply_rejected config.PeerKey pre post (libp2p.Identity sk)
                (mandatoryCfg env (Some k) secret listenAddrs ds dhtMode) Hk) as H.
  destruct (config.Apply (pre ++ libp2p.Identity sk :: post) _) as [c|e] eqn:Hc.
  - exfalso. enough (true = false) by discriminate. apply H; [by eexists|].
    intros c' [x Hx]. unfold libp2p.Identity. by rewrite Hx.
  - exists e. by apply SetupLibp2p_option_error.
Qed.

Lemma X8_second_identity_rejected_witness :
  exists e,
    ipfslite.SetupLibp2p env_ok (Some {| crypto.key_id := 7 |}) None [loopback] None
      dht.ModeAuto
      (ipfslite.Libp2pOptionsExtra bootstrap_addrs ++ libp2p.Identity key7 :: [])
      world0
    = ((None, None, Some e), world0).
Proof.
  exact (X8_second_identity_rejected env_ok {| crypto.key_id := 7 |} None [loopback]
           None dht.ModeAuto (ipfslite.Libp2pOptionsExtra bootstrap_addrs) [] key7
           world0 (Libp2pOptionsExtra_keeps_PeerKey bootstrap_addrs)).
Defined.

(** X9: [Libp2pOptionsExtra] can be passed once.  Followed by a further
    [libp2p.ConnectionManager] or [libp2p.NATPortMap] option, or by
    itself, it makes [SetupLibp2p] return an error, no host and no DHT,
    before anything is built. *)
Theorem X9_extra_options_not_repeatable (env : Env)
    (hostKey : option crypto.PrivKey) (secret : option pnet.PSK)
    (listenAddrs : list multiaddr.Multiaddr)
    (ds : option datastore.Batching) (dhtMode : dht.ModeOpt)
    (boot : list multiaddr.Multiaddr) (cm : option connmgr.ConnManager)
    (post : list (config.Option ipfslite.Captured)) (w : World) :
  (exists e,
     ipfslite.SetupLibp2p env hostKey secret listenAddrs ds dhtMode
       (ipfslite.Libp2pOptionsExtra boot ++ libp2p.ConnectionManager cm :: post) w
     = ((None, None, Some e), w))
  /\ (exists e,
        ipfslite.SetupLibp2p env hostKey secret listenAddrs ds dhtMode
          (ipfslite.Libp2pOptionsExtra boot ++ libp2p.NATPortMap :: post) w
        = ((None, None, Some e), w))
  /\ (exists e,
        ipfslite.SetupLibp2p env hostKey secret listenAddrs ds dhtMode
          (ipfslite.Libp2pOptionsExtra boot ++ ipfslite.Libp2pOptionsExtra boot ++ post) w
        = ((None, None, Some e), w)).
Proof.
  repeat split; eexists; apply SetupLibp2p_option_error; reflexivity.
Qed.

(** ** Listen addresses given by the caller *)


